(** * perf/pgbench.py: the TPS extractor and the benchmark parameters

    A shallow embedding of [Pgbench.extract_tps_stats] and of the
    parameter validation of [Pgbench.setUp] with the command choice of
    [Pgbench.test].

    - Text: [string] over [ascii], one character per code point below
      256.  A file is a decoded text, given as the list of lines that
      iterating over the file object yields.
    - [Re]: a backtracking matcher for the constructs the pattern uses
      (literals, greedy repetition of a character class, one group),
      with [search] trying the start positions from the left.
    - [float]: binary64 through [SpecFloat] (prec 53, emax 1024), with
      the decimal-to-binary conversion of [float(str)] and the
      binary-to-decimal conversion of [{:.2f}] both correctly rounded.
    - The builtin [sum] is given in its two CPython versions.
    - Effects: a state-and-exception monad over a world made of the
      file system (only read here) and the standard output.
    - The parameters of the test are Python ints: [Z]. *)

From Stdlib Require Import ZArith List String Ascii Bool Lia Permutation.
From Stdlib Require Import Floats.SpecFloat.
From Stdlib Require DecimalString.
Import ListNotations.
Local Open Scope string_scope.
Local Open Scope Z_scope.

(** ** Characters *)

Definition code (c : ascii) : N := N_of_ascii c.

(** [\d] on a str pattern: the decimal digits (below code point 256 these
    are the ASCII ones). *)
Definition is_digit (c : ascii) : bool :=
  ((48 <=? code c) && (code c <=? 57))%N.

(** [\s] on a str pattern: [str.isspace], i.e. tab, LF, VT, FF, CR,
    FS, GS, RS, US, space, NEL and NBSP below code point 256. *)
Definition is_space (c : ascii) : bool :=
  (((9 <=? code c) && (code c <=? 13))
   || ((28 <=? code c) && (code c <=? 32))
   || (code c =? 133) || (code c =? 160))%N.

Definition is_dot (c : ascii) : bool := (code c =? 46)%N.

(** The character class [[\d.]]. *)
Definition is_digit_or_dot (c : ascii) : bool := is_digit c || is_dot c.

(** ** Regular expressions, as [re] runs them *)

Module Re.

Inductive regex : Type :=
| Lit (c : ascii)
| Star (cls : ascii -> bool)
| Plus (cls : ascii -> bool)
| Cat (r1 r2 : regex)
| Group (r : regex).

(** A match object: what [group(1)] returns. *)
Record Match : Type := { group1 : option string }.

Section Matcher.
Context {R : Type}.

(** Greedy repetition of a one-character class: take as many as
    possible, give characters back while the rest fails. *)
Fixpoint star_loop (cls : ascii -> bool) (s : string)
         (k : string -> option R) : option R :=
  match s with
  | String c s' =>
      if cls c then
        match star_loop cls s' k with
        | Some r => Some r
        | None => k s
        end
      else k s
  | EmptyString => k s
  end.

Fixpoint run (r : regex) (s : string) (cap : option string)
         (k : string -> option string -> option R) : option R :=
  match r with
  | Lit c =>
      match s with
      | String c' s' => if Ascii.eqb c c' then k s' cap else None
      | EmptyString => None
      end
  | Star cls => star_loop cls s (fun s' => k s' cap)
  | Plus cls =>
      match s with
      | String c s' =>
          if cls c then star_loop cls s' (fun s'' => k s'' cap) else None
      | EmptyString => None
      end
  | Cat r1 r2 => run r1 s cap (fun s1 cap1 => run r2 s1 cap1 k)
  | Group r' =>
      run r' s cap
          (fun s' _ =>
             k s' (Some (substring 0 (length s - length s') s)))
  end.
End Matcher.

(** [pattern.match]: a match anchored at the start of [s]. *)
Definition match_at (r : regex) (s : string) : option Match :=
  run r s None (fun _ cap => Some {| group1 := cap |}).

(** [pattern.search]: the leftmost position where a match starts. *)
Fixpoint search (r : regex) (s : string) : option Match :=
  match match_at r s with
  | Some m => Some m
  | None =>
      match s with
      | String _ s' => search r s'
      | EmptyString => None
      end
  end.

End Re.

Import Re.

(** [re.compile(r"tps\s*=\s*([\d.]+)")] *)
Definition tps_pattern : regex :=
  Cat (Lit "t") (Cat (Lit "p") (Cat (Lit "s")
    (Cat (Star is_space) (Cat (Lit "=")
      (Cat (Star is_space) (Group (Plus is_digit_or_dot))))))).

(** ** Floats: binary64 *)

Definition float : Type := spec_float.

Definition prec : Z := 53.
Definition emax : Z := 1024.

Definition fadd : float -> float -> float := SFadd prec emax.
Definition fsub : float -> float -> float := SFsub prec emax.
Definition fdiv : float -> float -> float := SFdiv prec emax.
Definition flt : float -> float -> bool := SFltb.
Definition fle : float -> float -> bool := SFleb.

(** An [int] converted to [float] (round to nearest, ties to even). *)
Definition float_of_int (n : Z) : float := binary_normalize prec emax n 0 false.

Definition pos_inf : float := S754_infinity false.
Definition pos_zero : float := S754_zero false.

(** ** Exceptions *)

Inductive exn : Type :=
| ValueError
| TypeError
| FileNotFoundError.

Inductive result (A : Type) : Type :=
| Ok (a : A)
| Raise (e : exn).
Arguments Ok {A} a.
Arguments Raise {A} e.

Definition rbind {A B} (r : result A) (f : A -> result B) : result B :=
  match r with
  | Ok a => f a
  | Raise e => Raise e
  end.

(** ** [float(str)] on the strings the pattern can capture

    [group(1)] holds decimal digits and dots only (see
    [search_capture_alphabet] below).  On such a string [float] accepts
    [digits], [digits.], [digits.digits] and [.digits], and raises
    ValueError otherwise; the value is the decimal number rounded to the
    nearest binary64, ties to even, and overflows to infinity.  No other
    character reaches [float] here, and no property below rests on what
    [py_float] answers on one. *)

Definition digit_value (c : ascii) : Z := Z.of_N (code c) - 48.

(** Reads a run of digits: the number read so far, how many digits were
    read, and what follows the run. *)
Fixpoint read_digits (s : string) (acc : Z) (cnt : nat) : Z * nat * string :=
  match s with
  | String c s' =>
      if is_digit c then read_digits s' (10 * acc + digit_value c) (S cnt)
      else (acc, cnt, s)
  | EmptyString => (acc, cnt, s)
  end.

(** The nearest binary64 to [n / 10^k], for [0 <= n]: the quotient of
    the two integers, rounded once. *)
Definition decimal_to_float (n : Z) (k : nat) : float :=
  match n with
  | Zpos p =>
      fdiv (S754_finite false p 0)
           (S754_finite false (Z.to_pos (10 ^ Z.of_nat k)) 0)
  | _ => pos_zero
  end.

Definition py_float (s : string) : result float :=
  let '(ip, ni, rest) := read_digits s 0 0 in
  match rest with
  | EmptyString =>
      match ni with
      | O => Raise ValueError
      | S _ => Ok (decimal_to_float ip 0)
      end
  | String c rest' =>
      if is_dot c then
        let '(n, nf, rest'') := read_digits rest' ip 0 in
        match rest'' with
        | EmptyString =>
            match (ni + nf)%nat with
            | O => Raise ValueError
            | S _ => Ok (decimal_to_float n nf)
            end
        | String _ _ => Raise ValueError
        end
      else Raise ValueError
  end.

(** [float(match.group(1))]: [float(None)] is a TypeError. *)
Definition float_of_group (m : Match) : result float :=
  match group1 m with
  | Some tok => py_float tok
  | None => Raise TypeError
  end.

(** ** The builtins [min], [max] and [sum] on a list of floats *)

(** [min(v :: vs)]: keeps the first item, replaces it by a later one
    that compares [<] it. *)
Definition py_min (v : float) (vs : list float) : float :=
  fold_left (fun best x => if flt x best then x else best) vs v.

(** [max(v :: vs)]: replaces the kept item by a later one that compares
    [>] it. *)
Definition py_max (v : float) (vs : list float) : float :=
  fold_left (fun best x => if flt best x then x else best) vs v.

(** [sum] adds from the left, starting from the int 0.  CPython up to
    3.11 adds the items one by one; CPython from 3.12 on carries a
    compensation term (Neumaier) and adds it at the end. *)
Inductive sum_algorithm : Type :=
| LeftToRight
| Neumaier.

Definition nonzero_finite (c : float) : bool :=
  match c with
  | S754_finite _ _ _ => true
  | _ => false
  end.

Fixpoint neumaier_loop (l : list float) (f c : float) : float :=
  match l with
  | [] => if nonzero_finite c then fadd f c else f
  | x :: l' =>
      let t := fadd f x in
      let c' :=
        if fle (SFabs x) (SFabs f)
        then fadd c (fadd (fsub f t) x)
        else fadd c (fadd (fsub x t) f) in
      neumaier_loop l' t c'
  end.

Definition py_sum (alg : sum_algorithm) (l : list float) : float :=
  match alg with
  | LeftToRight => fold_left fadd l (float_of_int 0)
  | Neumaier =>
      match l with
      | [] => float_of_int 0
      | x :: l' => neumaier_loop l' (fadd (float_of_int 0) x) pos_zero
      end
  end.

(** [sum(l) / len(l)] *)
Definition average (alg : sum_algorithm) (l : list float) : float :=
  fdiv (py_sum alg l) (float_of_int (Z.of_nat (List.length l))).

(** ** [str.format]: the fields [{:<15}] and [{:<15.2f}] *)

Fixpoint spaces (n : nat) : string :=
  match n with
  | O => ""
  | S n' => String " " (spaces n')
  end.

(** [{:<15}]: left-justified in 15 columns, never cut. *)
Definition ljust15 (s : string) : string :=
  s ++ spaces (15 - String.length s).

(** The integer nearest to [n / d], ties to even, for [0 <= n], [0 < d]. *)
Definition round_half_even (n d : Z) : Z :=
  let q := n / d in
  match 2 * (n mod d) ?= d with
  | Lt => q
  | Eq => if Z.even q then q else q + 1
  | Gt => q + 1
  end.

(** The number of hundredths nearest to [m * 2^e]. *)
Definition hundredths (m : positive) (e : Z) : Z :=
  if e <? 0 then round_half_even (Zpos m * 100) (2 ^ (- e))
  else Zpos m * 2 ^ e * 100.

Definition decimal (n : Z) : string :=
  DecimalString.NilZero.string_of_uint (N.to_uint (Z.to_N n)).

Definition two_digits (n : Z) : string :=
  if n <? 10 then "0" ++ decimal n else decimal n.

Definition sign_text (s : bool) : string := if s then "-" else "".

(** [{:.2f}]: the exact value of the float, rounded to two decimals. *)
Definition format_2f (x : float) : string :=
  match x with
  | S754_nan => "nan"
  | S754_infinity s => sign_text s ++ "inf"
  | S754_zero s => sign_text s ++ "0.00"
  | S754_finite s m e =>
      let h := hundredths m e in
      sign_text s ++ decimal (h / 100) ++ "." ++ two_digits (h mod 100)
  end.

Definition field_2f (x : float) : string := ljust15 (format_2f x).

(** ** The world: files and the standard output *)

(** What one [print] call writes.  The line with the captured values
    keeps the floats themselves; their [repr] is not spelled out. *)
Inductive printed : Type :=
| Text (s : string)
| CapturedValues (vs : list float).

(** A text file is the list of lines that iterating over it yields;
    a path without a file maps to [None]. *)
Record world : Type := {
  fs : string -> option (list string);
  stdout : list printed
}.

Definition M (A : Type) : Type := world -> result A * world.

Definition ret {A} (a : A) : M A := fun w => (Ok a, w).

Definition bind {A B} (m : M A) (f : A -> M B) : M B :=
  fun w =>
    match m w with
    | (Ok a, w') => f a w'
    | (Raise e, w') => (Raise e, w')
    end.

Notation "x <- m ;; k" := (bind m (fun x => k))
  (at level 61, m at next level, right associativity).
Notation "m ;;; k" := (bind m (fun _ => k))
  (at level 61, right associativity).

Definition lift {A} (r : result A) : M A := fun w => (r, w).

Definition exn_eqb (a b : exn) : bool :=
  match a, b with
  | ValueError, ValueError => true
  | TypeError, TypeError => true
  | FileNotFoundError, FileNotFoundError => true
  | _, _ => false
  end.

(** [try: body  except cls: handler] *)
Definition try_except {A} (body : M A) (cls : exn) (handler : M A) : M A :=
  fun w =>
    match body w with
    | (Raise e, w') => if exn_eqb e cls then handler w' else (Raise e, w')
    | ok => ok
    end.

Definition print (p : printed) : M unit :=
  fun w => (Ok tt, {| fs := fs w; stdout := stdout w ++ [p] |}).

(** [open(path, "r")] read to the end, line by line. *)
Definition read_lines (path : string) : M (list string) :=
  fun w =>
    match fs w path with
    | Some lines => (Ok lines, w)
    | None => (Raise FileNotFoundError, w)
    end.

(** ** [extract_tps_stats] *)

(** The list comprehension: one float per line that matches, in file
    order; the first failing conversion ends it. *)
Fixpoint tps_values_of (lines : list string) : result (list float) :=
  match lines with
  | [] => Ok []
  | line :: rest =>
      match search tps_pattern line with
      | Some m =>
          rbind (float_of_group m) (fun v =>
          rbind (tps_values_of rest) (fun vs => Ok (v :: vs)))
      | None => tps_values_of rest
      end
  end.

Definition newline : ascii := ascii_of_nat 10.

Definition header_row : string :=
  ljust15 "Min" ++ ljust15 "Max" ++ ljust15 "Average".

Fixpoint repeat_string (s : string) (n : nat) : string :=
  match n with
  | O => ""
  | S n' => s ++ repeat_string s n'
  end.

Definition stats_row (alg : sum_algorithm) (v : float) (vs : list float)
  : string :=
  field_2f (py_min v vs) ++ field_2f (py_max v vs)
  ++ field_2f (average alg (v :: vs)).

(** The [try] block yields [Some tps_values]; the handler prints and
    returns from the function, which is [None] here. *)
Definition extract_tps_stats (alg : sum_algorithm) (log_file : string)
  : M unit :=
  r <- try_except
         (lines <- read_lines log_file ;;
          tps_values <- lift (tps_values_of lines) ;;
          ret (Some tps_values))
         FileNotFoundError
         (print (Text ("File not found: " ++ log_file)) ;;;
          ret None) ;;
  match r with
  | None => ret tt
  | Some [] => print (Text "No TPS values found in the log file.")
  | Some (v :: vs) =>
      print (CapturedValues (v :: vs)) ;;;
      print (Text (String newline "TPS Statistics")) ;;;
      print (Text header_row) ;;;
      print (Text (repeat_string "-" 45)) ;;;
      print (Text (stats_row alg v vs))
  end.

(** ** The benchmark parameters ([setUp], [test]) *)

Record Pgbench : Type := {
  scaling_factor : Z;
  worker_threads : Z;
  db_clients : Z;
  protocol : string;
  benchmark_duration : Z;
  transaction_count : Z;
  workload_iteration : Z
}.

Inductive warning : Type :=
| BothGiven       (* "... proceeding with specified time limit" *)
| NoneGiven.      (* "... defaulting to time limit of 120 secs" *)

(** The validation that ends the parameter setup of [setUp]. *)
Definition setUp_validation (self : Pgbench) : Pgbench * list warning :=
  if (0 <? benchmark_duration self) && (0 <? transaction_count self)
  then (self, [BothGiven])
  else if (benchmark_duration self =? 0) && (transaction_count self =? 0)
  then ({| scaling_factor := scaling_factor self;
           worker_threads := worker_threads self;
           db_clients := db_clients self;
           protocol := protocol self;
           benchmark_duration := 120;
           transaction_count := transaction_count self;
           workload_iteration := workload_iteration self |}, [NoneGiven])
  else (self, []).

(** An int inside an f-string. *)
Definition str_of_int (n : Z) : string :=
  DecimalString.NilZero.string_of_int (Z.to_int n).

Definition common_options (self : Pgbench) : string :=
  "pgbench --protocol=" ++ protocol self
  ++ " --jobs=" ++ str_of_int (worker_threads self)
  ++ " --scale=" ++ str_of_int (scaling_factor self)
  ++ " --client=" ++ str_of_int (db_clients self).

Definition time_limited_command (self : Pgbench) : string :=
  common_options self
  ++ "  -n --time=" ++ str_of_int (benchmark_duration self) ++ " -r pgbench".

Definition transaction_count_command (self : Pgbench) : string :=
  common_options self
  ++ "  -n --transactions=" ++ str_of_int (transaction_count self)
  ++ " -r pgbench".

(** The command one iteration of [test] runs. *)
Definition test_command (self : Pgbench) : string :=
  if 0 <? benchmark_duration self then time_limited_command self
  else transaction_count_command self.

(** ** Vocabulary for the statements *)

(** The world after [out] was printed. *)
Definition emit (w : world) (out : list printed) : world :=
  {| fs := fs w; stdout := stdout w ++ out |}.

(** A world with one file and nothing printed yet. *)
Definition single_file (path : string) (lines : list string) : world :=
  {| fs := fun p => if String.eqb p path then Some lines else None;
     stdout := [] |}.

(** A line as iterating over the file yields it: with its line feed. *)
Definition line (s : string) : string := s ++ String newline EmptyString.

(** What the five [print] calls of the statistics branch write. *)
Definition stats_output (alg : sum_algorithm) (v : float) (vs : list float)
  : list printed :=
  [ CapturedValues (v :: vs);
    Text (String newline "TPS Statistics");
    Text header_row;
    Text (repeat_string "-" 45);
    Text (stats_row alg v vs) ].

(** The outcome and the output of the extractor as a function of what
    the path holds. *)
Definition report (alg : sum_algorithm) (path : string)
           (file : option (list string)) : result unit * list printed :=
  match file with
  | None => (Ok tt, [Text ("File not found: " ++ path)])
  | Some lines =>
      match tps_values_of lines with
      | Raise e => (Raise e, [])
      | Ok [] => (Ok tt, [Text "No TPS values found in the log file."])
      | Ok (v :: vs) => (Ok tt, stats_output alg v vs)
      end
  end.

(** [self.transaction_count = t] *)
Definition with_transaction_count (self : Pgbench) (t : Z) : Pgbench :=
  {| scaling_factor := scaling_factor self;
     worker_threads := worker_threads self;
     db_clients := db_clients self;
     protocol := protocol self;
     benchmark_duration := benchmark_duration self;
     transaction_count := t;
     workload_iteration := workload_iteration self |}.

(** ** The pattern read directly

    The three classes of the pattern are pairwise disjoint, so the
    backtracking of [run] never changes a result: each repetition takes
    its longest run.  [tps_match_here] is that reading;
    [match_at_tps_pattern] shows that [run] computes it. *)

Fixpoint drop_while (cls : ascii -> bool) (s : string) : string :=
  match s with
  | String c s' => if cls c then drop_while cls s' else s
  | EmptyString => s
  end.

Fixpoint take_while (cls : ascii -> bool) (s : string) : string :=
  match s with
  | String c s' => if cls c then String c (take_while cls s') else EmptyString
  | EmptyString => EmptyString
  end.

Fixpoint all_chars (cls : ascii -> bool) (s : string) : bool :=
  match s with
  | String c s' => cls c && all_chars cls s'
  | EmptyString => true
  end.

Definition expect (c : ascii) (s : string) : option string :=
  match s with
  | String c' s' => if Ascii.eqb c c' then Some s' else None
  | EmptyString => None
  end.

Definition tps_match_here (s : string) : option Match :=
  match expect "t" s with
  | Some s1 =>
    match expect "p" s1 with
    | Some s2 =>
      match expect "s" s2 with
      | Some s3 =>
        match expect "=" (drop_while is_space s3) with
        | Some s4 =>
          match take_while is_digit_or_dot (drop_while is_space s4) with
          | EmptyString => None
          | tok => Some {| group1 := Some tok |}
          end
        | None => None
        end
      | None => None
      end
    | None => None
    end
  | None => None
  end.

(** The text has the shape the pattern asks for at its start: [tps],
    blanks, [=], blanks, then the run [tok] of digits and dots, which
    [rest] does not continue. *)
Definition tps_form (s ws1 ws2 tok rest : string) : Prop :=
  s = "tps" ++ ws1 ++ "=" ++ ws2 ++ tok ++ rest
  /\ all_chars is_space ws1 = true
  /\ all_chars is_space ws2 = true
  /\ tok <> EmptyString
  /\ all_chars is_digit_or_dot tok = true
  /\ match rest with
     | String c _ => is_digit_or_dot c = false
     | EmptyString => True
     end.



(** ** Non-negative floats *)

(** Zero, a positive finite number or plus infinity: no NaN, no sign. *)
Definition nonneg (x : float) : bool :=
  match x with
  | S754_zero s | S754_infinity s | S754_finite s _ _ => negb s
  | S754_nan => false
  end.

Definition all_nonneg (l : list float) : Prop :=
  Forall (fun v => nonneg v = true) l.

(** ** Inputs of the examples *)

(** The log of the example: four lines, three of them matching. *)
Definition example_log : list string :=
  [ line "tps = 120.50 (including connections establishing)";
    line "tps = 135.0";
    line "random text";
    line "tps=99.999" ].

Definition f120_5 : float := S754_finite false 8479433673408512 (-46).
Definition f135 : float := S754_finite false 4749890231992320 (-45).
Definition f99_999 : float := S754_finite false 7036804049022222 (-46).

(** Two logs with the same four lines, in opposite orders: 2^106, 2^53,
    1 and 1. *)
Definition descending_log : list string :=
  [ line "tps = 81129638414606681695789005144064";
    line "tps = 9007199254740992";
    line "tps = 1";
    line "tps = 1" ].

Definition ascending_log : list string := rev descending_log.

(** The parameters as [setUp] read them when the configuration gives a
    negative duration and no transaction count. *)
Definition negative_duration : Pgbench :=
  {| scaling_factor := 100;
     worker_threads := 8;
     db_clients := 8;
     protocol := "prepared";
     benchmark_duration := -1;
     transaction_count := 0;
     workload_iteration := 10 |}.

(** ** The test around the extractor

    [run_cmd], [get_distro_name], [install_and_initialize_postgres],
    [setUp], [test] and [tearDown].  The package manager, the service
    manager, the command runner, the clock and the test parameters are
    outside the program: what the test does to them is recorded as a
    trace of events, and what they answer is given by an environment.
    They are taken to answer: a collaborator that raises an error of its
    own is outside the model.  The files [test] writes are kept as
    texts, since the extractor reads them back. *)

(** What [process.run(cmd, ignore_status=True)] hands back. *)
Record CmdResult : Type := {
  exit_status : Z;
  stdout_text : string;
  stderr_text : string
}.

(** What the test does to its surroundings, oldest first.  [Run] keeps
    the result the command gave. *)
Inductive event : Type :=
| Install (package : string)
| Remove (package : string)
| Restart (service : string)
| Run (cmd : string) (r : CmdResult)
| MakeDirs (path : string)
| LogInfo (msg : string)
| LogWarn (w : warning).

(** What the test asks of its surroundings.  The answers that can change
    while the test runs are functions of what was done so far. *)
Record environment : Type := {
  geteuid : Z;
  getlogin : string;
  detect_name : string;
  online_count : Z;
  logdir : string;
  check_installed : list event -> string -> bool;
  process_run : list event -> string -> CmdResult;
  now : list event -> string;
  params_int : string -> option Z;
  params_str : string -> option string
}.

(** The instance attribute [already_installed], the text files, the
    trace and the standard output. *)
Record machine : Type := {
  already_installed : bool;
  files : string -> option string;
  trace : list event;
  console : list printed
}.

(** How a method ends: it returns, the test is cancelled
    ([self.cancel]), or an exception escapes. *)
Inductive outcome (A : Type) : Type :=
| Done (a : A)
| Cancelled (msg : string)
| Failed (e : exn).
Arguments Done {A} a.
Arguments Cancelled {A} msg.
Arguments Failed {A} e.

Definition T (A : Type) : Type := machine -> outcome A * machine.

Definition tret {A} (a : A) : T A := fun m => (Done a, m).

Definition tbind {A B} (c : T A) (f : A -> T B) : T B :=
  fun m =>
    match c m with
    | (Done a, m') => f a m'
    | (Cancelled msg, m') => (Cancelled msg, m')
    | (Failed e, m') => (Failed e, m')
    end.

Notation "x <~ c ;; k" := (tbind c (fun x => k))
  (at level 61, c at next level, right associativity).
Notation "c ;~ k" := (tbind c (fun _ => k))
  (at level 61, right associativity).

(** [self.cancel(msg)] *)
Definition cancel {A} (msg : string) : T A := fun m => (Cancelled msg, m).

Definition record_event (e : event) : T unit :=
  fun m => (Done tt,
            {| already_installed := already_installed m;
               files := files m;
               trace := trace m ++ [e];
               console := console m |}).

Definition log_info (msg : string) : T unit := record_event (LogInfo msg).

Definition set_already_installed (b : bool) : T unit :=
  fun m => (Done tt,
            {| already_installed := b;
               files := files m;
               trace := trace m;
               console := console m |}).

(** A [for] loop over a list. *)
Fixpoint for_each {A} (l : list A) (body : A -> T unit) : T unit :=
  match l with
  | [] => tret tt
  | a :: l' => body a ;~ for_each l' body
  end.

(** The truth value of an int. *)
Definition truthy (n : Z) : bool := negb (n =? 0).

(** [needle in hay], on strings. *)
Fixpoint contains (needle hay : string) : bool :=
  prefix needle hay
  || match hay with
     | String _ hay' => contains needle hay'
     | EmptyString => false
     end.

(** [name in names], on a list of strings. *)
Definition in_list (name : string) (names : list string) : bool :=
  existsb (String.eqb name) names.

Definition run_cmd (env : environment) (cmd : string) (ignore_failure : bool)
  : T (Z * string) :=
  command <~ (fun m => let r := process_run env (trace m) cmd in
                       tbind (record_event (Run cmd r)) (fun _ => tret r) m) ;;
  if truthy (exit_status command) && ignore_failure then
    log_info ("Command '" ++ cmd ++ "' returned '"
              ++ str_of_int (exit_status command) ++ "' with the text '"
              ++ stderr_text command ++ "'") ;~
    tret (exit_status command, stderr_text command)
  else if truthy (exit_status command) then
    cancel ("Command '" ++ cmd ++ "' returned '"
            ++ str_of_int (exit_status command) ++ "' with the text '"
            ++ stderr_text command ++ "'")
  else tret (exit_status command, stdout_text command).

Definition get_distro_name (env : environment) : option string :=
  if in_list (detect_name env) ["debian"; "fedora"; "rhel"; "SuSE"]
  then Some (detect_name env)
  else None.

Definition install_and_initialize_postgres (env : environment)
           (distro_name : string) : T unit :=
  for_each ["postgresql"; "postgresql-contrib"]
           (fun package => record_event (Install package)) ;~
  if in_list distro_name ["fedora"; "rhel"] then
    record_event (Install "postgresql-server") ;~
    output <~ run_cmd env "postgresql-setup --initdb" true ;;
    if truthy (fst output) && negb (contains "not empty" (snd output))
    then cancel ("Failed to initialize postgres - " ++ snd output)
    else tret tt
  else tret tt.

(** [self.params.get(key, default=d)] *)
Definition params_get_int (env : environment) (key : string) (d : Z) : Z :=
  match params_int env key with
  | Some v => v
  | None => d
  end.

Definition params_get_str (env : environment) (key : string) (d : string)
  : string :=
  match params_str env key with
  | Some v => v
  | None => d
  end.

(** The attributes [setUp] reads from the parameters. *)
Definition read_params (env : environment) : Pgbench :=
  {| scaling_factor := params_get_int env "scaling_factor" 100;
     worker_threads := params_get_int env "worker_threads" (online_count env);
     db_clients := params_get_int env "db_clients" (online_count env);
     protocol := params_get_str env "protocol" "prepared";
     benchmark_duration := params_get_int env "benchmark_duration" 0;
     transaction_count := params_get_int env "transaction_count" 0;
     workload_iteration := params_get_int env "workload_iteration" 10 |}.

(** [setUp]; it returns the attributes it leaves in [self]. *)
Definition setUp (env : environment) : T Pgbench :=
  (if negb (geteuid env =? 0)
   then cancel ("This script requires root privileges, "
                ++ "Please try again with 'sudo' or as 'root'")
   else tret tt) ;~
  installed <~ (fun m => tret (check_installed env (trace m) "pgbench") m) ;;
  (if installed then log_info "Pgbench is already installed"
   else match get_distro_name env with
        | Some distro_name =>
            install_and_initialize_postgres env distro_name ;~
            set_already_installed false
        | None => cancel "Unsupported Linux distribution"
        end) ;~
  record_event (Restart "postgresql") ;~
  output <~ run_cmd env ("sudo -u postgres createuser --superuser "
                         ++ getlogin env) true ;;
  (if truthy (fst output) && negb (contains "already exists" (snd output))
   then cancel ("Could not create role " ++ getlogin env)
   else tret tt) ;~
  let (self, warnings) := setUp_validation (read_params env) in
  for_each warnings (fun w => record_event (LogWarn w)) ;~
  run_cmd env "createdb pgbench" false ;~
  run_cmd env ("pgbench -i -s " ++ str_of_int (scaling_factor self)
               ++ " -n pgbench") false ;~
  tret self.

Definition tearDown (env : environment) : T unit :=
  run_cmd env "dropdb pgbench" true ;~
  installed <~ (fun m => tret (already_installed m) m) ;;
  if negb installed then
    for_each ["postgresql"; "postgresql-contrib"]
             (fun package => record_event (Remove package)) ;~
    match get_distro_name env with
    | Some distro_name =>
        if in_list distro_name ["fedora"; "rhel"]
        then record_event (Remove "postgresql-server")
        else tret tt
    | None => tret tt
    end
  else tret tt.

(** [os.path.join(a, b)] *)
Fixpoint ends_with_slash (a : string) : bool :=
  match a with
  | EmptyString => false
  | String c EmptyString => Ascii.eqb c "/"
  | String _ a' => ends_with_slash a'
  end.

Definition path_join (a b : string) : string :=
  if prefix "/" b then b
  else match a with
       | EmptyString => b
       | _ => if ends_with_slash a then a ++ b else a ++ "/" ++ b
       end.

(** [open(path, "w")] then [write(text)] *)
Definition write_file (path text : string) : T unit :=
  fun m => (Done tt,
            {| already_installed := already_installed m;
               files := fun p => if String.eqb p path then Some text
                                 else files m p;
               trace := trace m;
               console := console m |}).

(** [open(path, "a")] then [write(text)] *)
Definition append_file (path text : string) : T unit :=
  fun m => (Done tt,
            {| already_installed := already_installed m;
               files := fun p => if String.eqb p path
                                 then Some (match files m path with
                                            | Some old => old ++ text
                                            | None => text
                                            end)
                                 else files m p;
               trace := trace m;
               console := console m |}).

Definition carriage_return : ascii := ascii_of_nat 13.

(** Puts a character in front of the first line. *)
Definition push_char (c : ascii) (ls : list string) : list string :=
  match ls with
  | [] => [String c EmptyString]
  | l :: ls' => String c l :: ls'
  end.

(** The lines that iterating over a text file yields: a line ends at a
    line feed, at a carriage return or at the two in a row, and carries
    a line feed in their place. *)
Fixpoint text_lines (text : string) : list string :=
  match text with
  | EmptyString => []
  | String c rest =>
      if Ascii.eqb c newline then String newline EmptyString :: text_lines rest
      else if Ascii.eqb c carriage_return then
        match rest with
        | String c2 _ =>
            if Ascii.eqb c2 newline then text_lines rest
            else String newline EmptyString :: text_lines rest
        | EmptyString => [String newline EmptyString]
        end
      else push_char c (text_lines rest)
  end.

(** The extractor, called on the machine: it reads the files as lines
    and prints on the console. *)
Definition call_extract_tps_stats (alg : sum_algorithm) (log_file : string)
  : T unit :=
  fun m =>
    let w := {| fs := fun p => option_map text_lines (files m p);
                stdout := console m |} in
    let (r, w') := extract_tps_stats alg log_file w in
    (match r with
     | Ok a => Done a
     | Raise e => Failed e
     end,
     {| already_installed := already_installed m;
        files := files m;
        trace := trace m;
        console := stdout w' |}).

(** [range(1, n + 1)] *)
Definition range_from_1 (n : Z) : list Z :=
  map Z.of_nat (seq 1 (Z.to_nat n)).

(** What [test] writes to the payload file ahead of an iteration's
    output. *)
Definition iteration_header (ite : Z) : string :=
  "==================Iteration " ++ str_of_int ite ++ "============="
  ++ spaces 28 ++ String newline EmptyString.

Definition payload_path (env : environment) : string :=
  path_join (logdir env ++ "/pgbench_logs") "pgbench_payload.log".

(** One pass of the loop of [test]. *)
Definition test_iteration (env : environment) (self : Pgbench) (ite : Z)
  : T unit :=
  log_info ("Running pgbench iteration " ++ str_of_int ite ++ "...") ;~
  timestamp <~ (fun m => tret (now env (trace m)) m) ;;
  let log_path :=
    path_join (logdir env ++ "/pgbench_logs")
              ("pgbench_run_" ++ str_of_int ite ++ "_" ++ timestamp ++ ".log") in
  result <~ run_cmd env (test_command self) false ;;
  log_info "===== Pgbench benchmark results ======" ;~
  if negb (truthy (fst result)) then
    log_info (snd result) ;~
    append_file (payload_path env) (iteration_header ite) ;~
    append_file (payload_path env) (snd result) ;~
    append_file (payload_path env) (String newline EmptyString) ;~
    write_file log_path (snd result ++ String newline EmptyString)
  else tret tt.

Definition test (env : environment) (alg : sum_algorithm) (self : Pgbench)
  : T unit :=
  record_event (MakeDirs (logdir env ++ "/pgbench_logs")) ;~
  for_each (range_from_1 (workload_iteration self)) (test_iteration env self) ;~
  call_extract_tps_stats alg (payload_path env).

(** ** Vocabulary for the statements on the test *)

(** The packages a trace installs, and those it removes, in order. *)
Fixpoint installs (tr : list event) : list string :=
  match tr with
  | [] => []
  | Install p :: tr' => p :: installs tr'
  | _ :: tr' => installs tr'
  end.

Fixpoint removes (tr : list event) : list string :=
  match tr with
  | [] => []
  | Remove p :: tr' => p :: removes tr'
  | _ :: tr' => removes tr'
  end.

(** The commands a trace runs with their results, in order. *)
Fixpoint runs (tr : list event) : list (string * CmdResult) :=
  match tr with
  | [] => []
  | Run c r :: tr' => (c, r) :: runs tr'
  | _ :: tr' => runs tr'
  end.

(** A machine on which nothing was done yet. *)
Definition fresh_machine : machine :=
  {| already_installed := true;
     files := fun _ => None;
     trace := [];
     console := [] |}.

(** What the payload file gains from the outputs of the iterations
    [k], [k + 1], ... *)
Fixpoint payload_text (k : Z) (outs : list string) : string :=
  match outs with
  | [] => EmptyString
  | o :: outs' =>
      iteration_header k ++ o ++ String newline EmptyString
      ++ payload_text (k + 1) outs'
  end.

(** The machine after more events. *)
Definition add_events (m : machine) (evs : list event) : machine :=
  {| already_installed := already_installed m;
     files := files m;
     trace := trace m ++ evs;
     console := console m |}.

(** The message of [run_cmd] about a failed command. *)
Definition failure_text (cmd : string) (r : CmdResult) : string :=
  "Command '" ++ cmd ++ "' returned '" ++ str_of_int (exit_status r)
  ++ "' with the text '" ++ stderr_text r ++ "'".

(** The packages [setUp] installs on this distribution. *)
Definition postgres_packages (env : environment) : list string :=
  "postgresql" :: "postgresql-contrib"
  :: (if in_list (detect_name env) ["fedora"; "rhel"]
      then ["postgresql-server"] else []).

(** The machine with the attribute [already_installed] set. *)
Definition with_already_installed (m : machine) (b : bool) : machine :=
  {| already_installed := b;
     files := files m;
     trace := trace m;
     console := console m |}.

(** An environment for the examples: the user and the distribution are
    given, pgbench is not installed, [failing] tells the commands that
    fail (with status 1 and the text [boom]); the others print one
    throughput line.  Three iterations are configured. *)
Definition example_env (euid : Z) (distro : string) (failing : string -> bool)
  : environment :=
  {| geteuid := euid;
     getlogin := "tester";
     detect_name := distro;
     online_count := 4;
     logdir := "/var/tmp/job-1";
     check_installed := fun _ _ => false;
     process_run := fun _ cmd =>
       if failing cmd
       then {| exit_status := 1; stdout_text := ""; stderr_text := "boom" |}
       else {| exit_status := 0;
               stdout_text := line "tps = 12.5 (without initial connection time)";
               stderr_text := "" |};
     now := fun _ => "20240101_120000";
     params_int := fun key =>
       if String.eqb key "workload_iteration" then Some 3 else None;
     params_str := fun _ => None |}.

Definition nothing_fails (cmd : string) : bool := false.

Definition initdb_fails (cmd : string) : bool :=
  String.eqb cmd "postgresql-setup --initdb".

(** The payload file after the iterations [k], [k + 1], ... appended
    the outputs [outs] to what it held. *)
Definition payload_after (before : option string) (k : Z) (outs : list string)
  : option string :=
  match outs with
  | [] => before
  | _ => Some (match before with
               | Some old => old
               | None => EmptyString
               end ++ payload_text k outs)
  end.

(** A character that ends no line and is not the letter p. *)
Definition plain_char (c : ascii) : bool :=
  negb (Ascii.eqb c newline) && negb (Ascii.eqb c carriage_return)
  && negb (Ascii.eqb c "p").

(** What a file holds, the empty text when it is not there. *)
Definition content (f : option string) : string :=
  match f with
  | Some old => old
  | None => EmptyString
  end.

(** How the extractor's result shows as the outcome of [test]. *)
Definition outcome_of (r : result unit) : outcome unit :=
  match r with
  | Ok a => Done a
  | Raise e => Failed e
  end.

(** Some command of the benchmark fails: the one of the second
    iteration on, by its place in the trace. *)
Definition second_run_fails (env : environment) : environment :=
  {| geteuid := geteuid env;
     getlogin := getlogin env;
     detect_name := detect_name env;
     online_count := online_count env;
     logdir := logdir env;
     check_installed := check_installed env;
     process_run := fun tr cmd =>
       if (1 <=? List.length (runs tr))%nat
       then {| exit_status := 2; stdout_text := ""; stderr_text := "lost" |}
       else process_run env tr cmd;
     now := now env;
     params_int := params_int env;
     params_str := params_str env |}.

(** The attributes after a [setUp] with the default parameters and the
    given number of iterations. *)
Definition default_self (iterations : Z) : Pgbench :=
  {| scaling_factor := 100;
     worker_threads := 4;
     db_clients := 4;
     protocol := "prepared";
     benchmark_duration := 120;
     transaction_count := 0;
     workload_iteration := iterations |}.

(** ** Tactics *)

Ltac order_cases :=
  repeat match goal with
         | |- context [Z.compare ?a ?b] =>
             destruct (Z.compare_spec a b)
         | |- context [Pos.compare_cont Eq ?a ?b] =>
             change (Pos.compare_cont Eq a b) with (Pos.compare a b);
             destruct (Pos.compare_spec a b)
         | H : context [Z.compare ?a ?b] |- _ =>
             destruct (Z.compare_spec a b)
         | H : context [Pos.compare_cont Eq ?a ?b] |- _ =>
             change (Pos.compare_cont Eq a b) with (Pos.compare a b) in H;
             destruct (Pos.compare_spec a b)
         end.

Ltac float_order :=
  unfold fle, flt, SFleb, SFltb, SFcompare, nonneg in *;
  repeat match goal with
         | x : float |- _ => destruct x as [[]|[]| |[] ? ?]
         | x : spec_float |- _ => destruct x as [[]|[]| |[] ? ?]
         end;
  simpl in *; try congruence; try tauto;
  order_cases; subst; simpl in *; try congruence; try lia; try tauto.

(** * Properties *)

(** ** The pattern on examples *)

Example search_plain :
  search tps_pattern "tps = 120.50 (including connections establishing)"
  = Some {| group1 := Some "120.50" |}.
Proof. reflexivity. Qed.

Example search_upper : search tps_pattern "TPS = 7" = None.
Proof. reflexivity. Qed.

Example search_second_position :
  search tps_pattern "tps: n/a, tps=3.5" = Some {| group1 := Some "3.5" |}.
Proof. reflexivity. Qed.

(** ** [float] and [{:.2f}] on examples *)

Example py_float_tenth :
  py_float "0.1" = Ok (S754_finite false 7205759403792794 (-56)).
Proof. vm_compute. reflexivity. Qed.

Example py_float_trailing_dot : py_float "5." = py_float "5".
Proof. vm_compute. reflexivity. Qed.

Example py_float_leading_dot :
  py_float ".5" = Ok (S754_finite false 4503599627370496 (-53)).
Proof. vm_compute. reflexivity. Qed.

Example py_float_lone_dot : py_float "." = Raise ValueError.
Proof. reflexivity. Qed.

Example py_float_ties_to_even :
  py_float "9007199254740993" = py_float "9007199254740992".
Proof. vm_compute. reflexivity. Qed.

Example format_2f_half_down :
  rbind (py_float "0.125") (fun x => Ok (format_2f x)) = Ok "0.12".
Proof. vm_compute. reflexivity. Qed.

Example format_2f_half_up :
  rbind (py_float "0.375") (fun x => Ok (format_2f x)) = Ok "0.38".
Proof. vm_compute. reflexivity. Qed.

Example format_2f_binary_value :
  rbind (py_float "2.675") (fun x => Ok (format_2f x)) = Ok "2.67".
Proof. vm_compute. reflexivity. Qed.

Example field_2f_padding :
  rbind (py_float "7.1") (fun x => Ok (field_2f x)) = Ok "7.10           ".
Proof. vm_compute. reflexivity. Qed.

(** Adding from the left depends on the order already on 0.1, 0.2, 0.3;
    the compensated sum does not, on these. *)
Example average_of_tenths_order :
  let a := S754_finite false 7205759403792794 (-56) in
  let b := S754_finite false 7205759403792794 (-55) in
  let c := S754_finite false 5404319552844595 (-54) in
  average LeftToRight [a; b; c] = S754_finite false 7205759403792795 (-55)
  /\ average LeftToRight [c; b; a] = S754_finite false 7205759403792793 (-55)
  /\ average Neumaier [a; b; c] = average Neumaier [c; b; a].
Proof. repeat apply conj; vm_compute; reflexivity. Qed.

(** ** The extractor is a function of the file, and only prints *)

Lemma emit_nil (w : world) : emit w [] = w.
Proof.
  destruct w as [f o]. unfold emit. simpl. now rewrite app_nil_r.
Qed.

(** The conversions raise ValueError or TypeError, never the exception
    the [except] clause names. *)
Lemma py_float_raises (s : string) (e : exn) :
  py_float s = Raise e -> e = ValueError.
Proof.
  unfold py_float.
  destruct (read_digits s 0 0) as [[ip ni] rest].
  destruct rest as [|c rest'].
  - destruct ni; congruence.
  - destruct (is_dot c); [|congruence].
    destruct (read_digits rest' ip 0) as [[n nf] rest''].
    destruct rest''; [|congruence].
    destruct (ni + nf)%nat; congruence.
Qed.

Lemma float_of_group_raises (m : Match) (e : exn) :
  float_of_group m = Raise e -> e <> FileNotFoundError.
Proof.
  unfold float_of_group. destruct (group1 m) as [tok|].
  - intros H. apply py_float_raises in H. congruence.
  - congruence.
Qed.

Lemma tps_values_of_raises (lines : list string) (e : exn) :
  tps_values_of lines = Raise e -> e <> FileNotFoundError.
Proof.
  induction lines as [|line rest IH]; simpl.
  - congruence.
  - destruct (search tps_pattern line) as [m|]; [|exact IH].
    destruct (float_of_group m) as [v|e'] eqn:Hm; simpl.
    + destruct (tps_values_of rest) as [vs|e'']; simpl.
      * congruence.
      * intros H. apply IH. congruence.
    + intros H. apply (float_of_group_raises m). congruence.
Qed.

Lemma extract_tps_stats_report (alg : sum_algorithm) (path : string)
      (w : world) :
  extract_tps_stats alg path w
  = (fst (report alg path (fs w path)), emit w (snd (report alg path (fs w path)))).
Proof.
  unfold extract_tps_stats, report, bind, try_except, read_lines, lift, ret.
  destruct (fs w path) as [lines|]; simpl.
  - destruct (tps_values_of lines) as [[|v vs]|e] eqn:Hv; simpl.
    + reflexivity.
    + unfold stats_output, emit, print. simpl.
      repeat rewrite <- app_assoc. reflexivity.
    + apply tps_values_of_raises in Hv.
      destruct e; simpl; try congruence; now rewrite emit_nil.
  - reflexivity.
Qed.

(** ** What the pattern matches

    The three classes of the pattern are pairwise disjoint, so the
    backtracking of [run] never changes a result: each repetition takes
    its longest run.  [tps_match_here] is that reading, and
    [match_at_tps_pattern] shows [run] computes it. *)

Lemma star_loop_reject {R : Type} (cls : ascii -> bool)
      (k : string -> option R) (s : string) :
  (forall c s', cls c = true -> k (String c s') = None) ->
  star_loop cls s k = k (drop_while cls s).
Proof.
  intros Hk. induction s as [|c s IH]; simpl; [reflexivity|].
  destruct (cls c) eqn:Hc; [|reflexivity].
  rewrite IH. destruct (k (drop_while cls s)) eqn:Hd; [reflexivity|].
  now apply Hk.
Qed.

Lemma star_loop_accept {R : Type} (cls : ascii -> bool)
      (k : string -> option R) (s : string) :
  (forall s', k s' <> None) ->
  star_loop cls s k = k (drop_while cls s).
Proof.
  intros Hk. induction s as [|c s IH]; simpl; [reflexivity|].
  destruct (cls c); [|reflexivity].
  rewrite IH. destruct (k (drop_while cls s)) eqn:Hd; [reflexivity|].
  now apply Hk in Hd.
Qed.

Lemma drop_while_length (cls : ascii -> bool) (s : string) :
  (String.length (drop_while cls s) <= String.length s)%nat.
Proof.
  induction s as [|c s IH]; simpl; [lia|].
  destruct (cls c); simpl; lia.
Qed.

Lemma substring_take_while (cls : ascii -> bool) (s : string) :
  substring 0 (String.length s - String.length (drop_while cls s)) s
  = take_while cls s.
Proof.
  induction s as [|c s IH]; [reflexivity|].
  cbn [drop_while take_while]. destruct (cls c) eqn:Hc.
  - pose proof (drop_while_length cls s) as Hl.
    cbn [String.length].
    replace (S (String.length s) - String.length (drop_while cls s))%nat
      with (S (String.length s - String.length (drop_while cls s))) by lia.
    cbn [substring]. now rewrite IH.
  - now rewrite Nat.sub_diag.
Qed.

Lemma space_not_equals (c : ascii) :
  is_space c = true -> Ascii.eqb "=" c = false.
Proof.
  destruct c as [[] [] [] [] [] [] [] []]; vm_compute; congruence.
Qed.

Lemma space_not_digit_or_dot (c : ascii) :
  is_space c = true -> is_digit_or_dot c = false.
Proof.
  destruct c as [[] [] [] [] [] [] [] []]; vm_compute; congruence.
Qed.

Lemma match_at_tps_pattern (s : string) :
  match_at tps_pattern s = tps_match_here s.
Proof.
  unfold match_at, tps_match_here, tps_pattern, expect. cbn [run].
  destruct s as [|c0 s]; [reflexivity|].
  destruct (Ascii.eqb "t" c0); [|reflexivity].
  destruct s as [|c1 s]; [reflexivity|].
  destruct (Ascii.eqb "p" c1); [|reflexivity].
  destruct s as [|c2 s]; [reflexivity|].
  destruct (Ascii.eqb "s" c2); [|reflexivity].
  rewrite star_loop_reject.
  2:{ intros c s' Hc. now rewrite (space_not_equals c Hc). }
  destruct (drop_while is_space s) as [|c3 s3]; [reflexivity|].
  destruct (Ascii.eqb "=" c3); [|reflexivity].
  rewrite star_loop_reject.
  2:{ intros c s' Hc. now rewrite (space_not_digit_or_dot c Hc). }
  destruct (drop_while is_space s3) as [|c4 s4]; [reflexivity|].
  cbn [take_while]. destruct (is_digit_or_dot c4) eqn:Hc4; [|reflexivity].
  rewrite star_loop_accept by congruence.
  pose proof (drop_while_length is_digit_or_dot s4) as Hl.
  cbn [String.length].
  replace (S (String.length s4)
           - String.length (drop_while is_digit_or_dot s4))%nat
    with (S (String.length s4
             - String.length (drop_while is_digit_or_dot s4))) by lia.
  cbn [substring]. now rewrite substring_take_while.
Qed.

Lemma take_while_all (cls : ascii -> bool) (s : string) :
  all_chars cls (take_while cls s) = true.
Proof.
  induction s as [|c s IH]; simpl; [reflexivity|].
  destruct (cls c) eqn:Hc; simpl; [now rewrite Hc|reflexivity].
Qed.

(** [group(1)] always took part in a match, is not empty, and holds
    digits and dots only. *)
Lemma match_here_capture (s : string) (m : Match) :
  tps_match_here s = Some m ->
  exists tok, group1 m = Some tok /\ tok <> EmptyString
              /\ all_chars is_digit_or_dot tok = true.
Proof.
  unfold tps_match_here.
  destruct (expect "t" s) as [s1|]; [|congruence].
  destruct (expect "p" s1) as [s2|]; [|congruence].
  destruct (expect "s" s2) as [s3|]; [|congruence].
  destruct (expect "=" (drop_while is_space s3)) as [s4|]; [|congruence].
  pose proof (take_while_all is_digit_or_dot (drop_while is_space s4)) as Ha.
  destruct (take_while is_digit_or_dot (drop_while is_space s4)) as [|c tok];
    [congruence|].
  intros H. injection H as <-. exists (String c tok). simpl.
  repeat split; [congruence|exact Ha].
Qed.

Lemma search_capture_alphabet (line : string) (m : Match) :
  search tps_pattern line = Some m ->
  exists tok, group1 m = Some tok /\ tok <> EmptyString
              /\ all_chars is_digit_or_dot tok = true.
Proof.
  induction line as [|c line IH]; cbn [search]; rewrite match_at_tps_pattern.
  - destruct (tps_match_here "") as [m'|] eqn:Hm; [|congruence].
    intros H. injection H as <-. now apply (match_here_capture "").
  - destruct (tps_match_here (String c line)) as [m'|] eqn:Hm; [|exact IH].
    intros H. injection H as <-. now apply (match_here_capture (String c line)).
Qed.

(** ** The shape of a matching line *)

Lemma expect_some (c : ascii) (s s' : string) :
  expect c s = Some s' -> s = String c s'.
Proof.
  unfold expect. destruct s as [|c' t]; [congruence|].
  destruct (Ascii.eqb c c') eqn:E; [|congruence].
  apply Ascii.eqb_eq in E. congruence.
Qed.

Lemma expect_cons (c : ascii) (s : string) : expect c (String c s) = Some s.
Proof. unfold expect. now rewrite Ascii.eqb_refl. Qed.

Lemma take_drop_while (cls : ascii -> bool) (s : string) :
  s = take_while cls s ++ drop_while cls s.
Proof.
  induction s as [|c s IH]; [reflexivity|].
  cbn [take_while drop_while]. destruct (cls c); [|reflexivity].
  cbn [append]. now rewrite <- IH.
Qed.

Lemma drop_while_head (cls : ascii -> bool) (s : string) (c : ascii)
      (r : string) :
  drop_while cls s = String c r -> cls c = false.
Proof.
  induction s as [|c' s IH]; cbn [drop_while]; [congruence|].
  destruct (cls c') eqn:E; [exact IH|]. congruence.
Qed.

Lemma drop_while_app (cls : ascii -> bool) (ws s : string) :
  all_chars cls ws = true -> drop_while cls (ws ++ s) = drop_while cls s.
Proof.
  induction ws as [|c ws IH]; cbn [all_chars append drop_while]; [trivial|].
  intros H. apply andb_prop in H. destruct H as [Hc Hws].
  rewrite Hc. now apply IH.
Qed.

Lemma take_while_app_stop (cls : ascii -> bool) (tok rest : string) :
  all_chars cls tok = true ->
  match rest with
  | String c _ => cls c = false
  | EmptyString => True
  end ->
  take_while cls (tok ++ rest) = tok.
Proof.
  intros Htok Hrest. induction tok as [|c tok IH].
  - cbn [append]. destruct rest as [|c r]; [reflexivity|].
    cbn [take_while]. now rewrite Hrest.
  - cbn [all_chars] in Htok. apply andb_prop in Htok. destruct Htok as [Hc Htok].
    cbn [append take_while]. rewrite Hc. f_equal. now apply IH.
Qed.

Lemma tps_match_here_form (s : string) (m : Match) :
  tps_match_here s = Some m ->
  exists ws1 ws2 tok rest,
    tps_form s ws1 ws2 tok rest /\ group1 m = Some tok.
Proof.
  unfold tps_match_here.
  destruct (expect "t" s) as [s1|] eqn:E1; [|congruence].
  destruct (expect "p" s1) as [s2|] eqn:E2; [|congruence].
  destruct (expect "s" s2) as [s3|] eqn:E3; [|congruence].
  destruct (expect "=" (drop_while is_space s3)) as [s4|] eqn:E4; [|congruence].
  apply expect_some in E1, E2, E3, E4.
  set (t := drop_while is_space s4).
  pose proof (take_while_all is_digit_or_dot t) as Hall.
  destruct (take_while is_digit_or_dot t) as [|c tok] eqn:Htok; [congruence|].
  intros H. injection H as <-.
  exists (take_while is_space s3), (take_while is_space s4),
         (String c tok), (drop_while is_digit_or_dot t).
  split; [|reflexivity].
  unfold tps_form. repeat apply conj.
  - subst s s1 s2. cbn [append]. do 3 f_equal.
    rewrite (take_drop_while is_space s3) at 1. f_equal.
    rewrite E4. cbn [append]. f_equal.
    rewrite (take_drop_while is_space s4) at 1. f_equal.
    fold t. rewrite (take_drop_while is_digit_or_dot t) at 1.
    now rewrite Htok.
  - apply take_while_all.
  - apply take_while_all.
  - congruence.
  - exact Hall.
  - destruct (drop_while is_digit_or_dot t) as [|c' r] eqn:Hd; [trivial|].
    now apply drop_while_head in Hd.
Qed.

Lemma tps_form_match_here (s ws1 ws2 tok rest : string) :
  tps_form s ws1 ws2 tok rest ->
  tps_match_here s = Some {| group1 := Some tok |}.
Proof.
  intros (-> & H1 & H2 & Hne & Htok & Hrest).
  destruct tok as [|c tok]; [congruence|]. clear Hne.
  cbn [all_chars] in Htok. apply andb_prop in Htok. destruct Htok as [Hc Htok].
  unfold tps_match_here. cbn [append].
  do 3 (rewrite expect_cons; cbv iota beta).
  rewrite (drop_while_app is_space ws1) by exact H1.
  cbn [append]. change (drop_while is_space (String "=" ?x)) with (String "=" x).
  rewrite expect_cons; cbv iota beta.
  rewrite (drop_while_app is_space ws2) by exact H2.
  cbn [append drop_while].
  assert (Hsp : is_space c = false).
  { destruct (is_space c) eqn:E; [|reflexivity].
    apply space_not_digit_or_dot in E. congruence. }
  rewrite Hsp. cbn [take_while]. rewrite Hc.
  now rewrite (take_while_app_stop is_digit_or_dot tok rest).
Qed.

(** A line is matched exactly when the shape occurs somewhere in it;
    the match taken is the leftmost one. *)
Lemma search_some_form (line : string) (m : Match) :
  search tps_pattern line = Some m ->
  exists pre s ws1 ws2 tok rest,
    line = pre ++ s /\ tps_form s ws1 ws2 tok rest /\ group1 m = Some tok.
Proof.
  induction line as [|c line IH]; cbn [search]; rewrite match_at_tps_pattern.
  - destruct (tps_match_here "") as [m'|] eqn:Hm; [|congruence].
    intros H. injection H as <-.
    destruct (tps_match_here_form "" m' Hm) as (ws1 & ws2 & tok & rest & Hf & Hg).
    now exists "", "", ws1, ws2, tok, rest.
  - destruct (tps_match_here (String c line)) as [m'|] eqn:Hm.
    + intros H. injection H as <-.
      destruct (tps_match_here_form _ m' Hm) as (ws1 & ws2 & tok & rest & Hf & Hg).
      now exists "", (String c line), ws1, ws2, tok, rest.
    + intros H. destruct (IH H) as (pre & s & ws1 & ws2 & tok & rest & -> & Hf & Hg).
      now exists (String c pre), s, ws1, ws2, tok, rest.
Qed.

Lemma search_form_some (pre s ws1 ws2 tok rest : string) :
  tps_form s ws1 ws2 tok rest ->
  exists m, search tps_pattern (pre ++ s) = Some m.
Proof.
  intros Hf. apply tps_form_match_here in Hf.
  induction pre as [|c pre IH]; cbn [append].
  - destruct s as [|c s]; cbn [search]; rewrite match_at_tps_pattern, Hf;
      eexists; reflexivity.
  - cbn [search]. destruct (match_at tps_pattern (String c (pre ++ s))) as [m|].
    + now exists m.
    + exact IH.
Qed.

(** ** Which captured tokens [float] accepts *)











(** ** The samples are non-negative floats *)

Lemma shr_1_nonneg (r : shr_record) : 0 <= shr_m r -> 0 <= shr_m (shr_1 r).
Proof.
  destruct r as [m r s]. simpl.
  destruct m as [|[p|p|]|[p|p|]]; simpl; lia.
Qed.

Lemma iter_pos_shr_1_nonneg (p : positive) (r : shr_record) :
  0 <= shr_m r -> 0 <= shr_m (iter_pos shr_1 p r).
Proof.
  revert r. induction p as [p IH|p IH|]; intros r Hr; simpl.
  - apply IH, IH, shr_1_nonneg, Hr.
  - apply IH, IH, Hr.
  - apply shr_1_nonneg, Hr.
Qed.

Lemma shr_fexp_nonneg (m e : Z) (l : location) :
  0 <= m -> 0 <= shr_m (fst (shr_fexp prec emax m e l)).
Proof.
  intros Hm. unfold shr_fexp, shr.
  assert (H0 : 0 <= shr_m (shr_record_of_loc m l)).
  { destruct l as [|[]]; simpl; exact Hm. }
  destruct (fexp prec emax (Zdigits2 m + e) - e) as [|p|p]; simpl;
    [exact H0|apply iter_pos_shr_1_nonneg, H0|exact H0].
Qed.

Lemma round_nearest_even_nonneg (m : Z) (l : location) :
  0 <= m -> 0 <= round_nearest_even m l.
Proof.
  intros Hm. destruct l as [|[]]; simpl; try lia.
  destruct (Z.even m); lia.
Qed.

Lemma binary_round_aux_nonneg (m e : Z) (l : location) :
  0 <= m -> nonneg (binary_round_aux prec emax false m e l) = true.
Proof.
  intros Hm. unfold binary_round_aux.
  pose proof (shr_fexp_nonneg m e l Hm) as H1.
  destruct (shr_fexp prec emax m e l) as [mrs' e']. simpl in H1.
  pose proof (shr_fexp_nonneg
                (round_nearest_even (shr_m mrs') (loc_of_shr_record mrs'))
                e' loc_Exact
                (round_nearest_even_nonneg _ _ H1)) as H2.
  destruct (shr_fexp prec emax _ e' loc_Exact) as [mrs'' e'']. simpl in H2.
  destruct (shr_m mrs'') as [|p|p]; [reflexivity| |lia].
  destruct (e'' <=? emax - prec); reflexivity.
Qed.

Lemma decimal_to_float_nonneg (n : Z) (k : nat) :
  nonneg (decimal_to_float n k) = true.
Proof.
  unfold decimal_to_float. destruct n as [|p|p]; try reflexivity.
  unfold fdiv, SFdiv.
  set (q := Z.to_pos (10 ^ Z.of_nat k)).
  destruct (SFdiv_core_binary prec emax (Z.pos p) 0 (Z.pos q) 0)
    as [[mz ez] lz] eqn:Hcore.
  apply binary_round_aux_nonneg.
  unfold SFdiv_core_binary in Hcore.
  set (m' := match _ - _ - _ with Z.pos _ => _ | Z0 => _ | Z.neg _ => _ end)
    in Hcore.
  assert (Hm' : 0 <= m').
  { subst m'. destruct (_ - _ - _) as [|s|s]; try lia.
    apply Z.shiftl_nonneg. lia. }
  pose proof (Z_div_mod m' (Z.pos q) ltac:(lia)) as Hdm.
  destruct (Z.div_eucl m' (Z.pos q)) as [qq r].
  injection Hcore as <- _ _. nia.
Qed.

Lemma py_float_nonneg (s : string) (v : float) :
  py_float s = Ok v -> nonneg v = true.
Proof.
  unfold py_float.
  destruct (read_digits s 0 0) as [[ip ni] rest].
  destruct rest as [|c rest'].
  - destruct ni; [congruence|].
    intros H. injection H as <-. apply decimal_to_float_nonneg.
  - destruct (is_dot c); [|congruence].
    destruct (read_digits rest' ip 0) as [[n nf] rest''].
    destruct rest''; [|congruence].
    destruct (ni + nf)%nat; [congruence|].
    intros H. injection H as <-. apply decimal_to_float_nonneg.
Qed.

Lemma tps_values_of_nonneg (lines : list string) (vs : list float) :
  tps_values_of lines = Ok vs -> Forall (fun v => nonneg v = true) vs.
Proof.
  revert vs. induction lines as [|line rest IH]; simpl; intros vs.
  - intros H. injection H as <-. constructor.
  - destruct (search tps_pattern line) as [m|]; [|apply IH].
    unfold float_of_group.
    destruct (group1 m) as [tok|]; simpl; [|congruence].
    destruct (py_float tok) as [v|e] eqn:Hv; simpl; [|congruence].
    destruct (tps_values_of rest) as [vs'|e]; simpl; [|congruence].
    intros H. injection H as <-. constructor.
    + now apply (py_float_nonneg tok).
    + now apply IH.
Qed.

(** ** [<] and [<=] on non-negative floats form a total order *)

Lemma fle_total (a b : float) :
  nonneg a = true -> nonneg b = true -> flt b a = false -> fle a b = true.
Proof. intros Ha Hb. float_order. Qed.

Lemma flt_fle (a b : float) : flt a b = true -> fle a b = true.
Proof. float_order. Qed.

Lemma fle_refl (a : float) : nonneg a = true -> fle a a = true.
Proof. intros Ha. float_order. Qed.

Lemma fle_trans (a b c : float) :
  fle a b = true -> fle b c = true -> fle a c = true.
Proof. intros Hab Hbc. float_order. Qed.

Lemma fle_antisym (a b : float) :
  nonneg a = true -> nonneg b = true ->
  fle a b = true -> fle b a = true -> a = b.
Proof. intros Ha Hb Hab Hba. float_order. Qed.

(** ** [min] and [max] pick the least and the greatest sample *)

Lemma py_min_in (v : float) (vs : list float) : In (py_min v vs) (v :: vs).
Proof.
  revert v. induction vs as [|x vs IH]; intros v; [now left|].
  unfold py_min. cbn [fold_left]. fold (py_min (if flt x v then x else v) vs).
  destruct (IH (if flt x v then x else v)) as [H|H].
  - rewrite <- H. destruct (flt x v); [right; now left|now left].
  - right; now right.
Qed.

Lemma py_max_in (v : float) (vs : list float) : In (py_max v vs) (v :: vs).
Proof.
  revert v. induction vs as [|x vs IH]; intros v; [now left|].
  unfold py_max. cbn [fold_left]. fold (py_max (if flt v x then x else v) vs).
  destruct (IH (if flt v x then x else v)) as [H|H].
  - rewrite <- H. destruct (flt v x); [right; now left|now left].
  - right; now right.
Qed.

Lemma py_min_least (v : float) (vs : list float) :
  all_nonneg (v :: vs) ->
  forall x, In x (v :: vs) -> fle (py_min v vs) x = true.
Proof.
  revert v. induction vs as [|y vs IH]; intros v Hall x Hx.
  - destruct Hx as [<-|[]]. apply fle_refl. now inversion Hall.
  - inversion Hall as [|? ? Hv Hrest]; subst.
    inversion Hrest as [|? ? Hy Hvs]; subst.
    unfold py_min. cbn [fold_left]. fold (py_min (if flt y v then y else v) vs).
    set (b := if flt y v then y else v).
    assert (Hb : nonneg b = true) by (subst b; now destruct (flt y v)).
    assert (Hbv : fle b v = true).
    { subst b. destruct (flt y v) eqn:E; [now apply flt_fle|now apply fle_refl]. }
    assert (Hby : fle b y = true).
    { subst b. destruct (flt y v) eqn:E; [now apply fle_refl|now apply fle_total]. }
    assert (Hall' : all_nonneg (b :: vs)) by now constructor.
    destruct Hx as [<-|[<-|Hx]].
    + apply fle_trans with b; [apply IH; [exact Hall'|now left]|exact Hbv].
    + apply fle_trans with b; [apply IH; [exact Hall'|now left]|exact Hby].
    + apply IH; [exact Hall'|now right].
Qed.

Lemma py_max_greatest (v : float) (vs : list float) :
  all_nonneg (v :: vs) ->
  forall x, In x (v :: vs) -> fle x (py_max v vs) = true.
Proof.
  revert v. induction vs as [|y vs IH]; intros v Hall x Hx.
  - destruct Hx as [<-|[]]. apply fle_refl. now inversion Hall.
  - inversion Hall as [|? ? Hv Hrest]; subst.
    inversion Hrest as [|? ? Hy Hvs]; subst.
    unfold py_max. cbn [fold_left]. fold (py_max (if flt v y then y else v) vs).
    set (b := if flt v y then y else v).
    assert (Hb : nonneg b = true) by (subst b; now destruct (flt v y)).
    assert (Hbv : fle v b = true).
    { subst b. destruct (flt v y) eqn:E; [now apply flt_fle|now apply fle_refl]. }
    assert (Hby : fle y b = true).
    { subst b. destruct (flt v y) eqn:E; [now apply fle_refl|now apply fle_total]. }
    assert (Hall' : all_nonneg (b :: vs)) by now constructor.
    destruct Hx as [<-|[<-|Hx]].
    + apply fle_trans with b; [exact Hbv|apply IH; [exact Hall'|now left]].
    + apply fle_trans with b; [exact Hby|apply IH; [exact Hall'|now left]].
    + apply IH; [exact Hall'|now right].
Qed.

Lemma all_nonneg_in (l : list float) (x : float) :
  all_nonneg l -> In x l -> nonneg x = true.
Proof.
  intros Hall Hx. unfold all_nonneg in Hall.
  rewrite Forall_forall in Hall. now apply Hall.
Qed.

(** The least and the greatest element do not depend on the order. *)
Lemma py_min_permutation (v v' : float) (vs vs' : list float) :
  all_nonneg (v :: vs) -> Permutation (v :: vs) (v' :: vs') ->
  py_min v vs = py_min v' vs'.
Proof.
  intros Hall Hp.
  assert (Hall' : all_nonneg (v' :: vs')).
  { unfold all_nonneg in *. now rewrite <- Hp. }
  pose proof (py_min_in v vs) as H1. pose proof (py_min_in v' vs') as H2.
  apply fle_antisym.
  - now apply (all_nonneg_in (v :: vs)).
  - now apply (all_nonneg_in (v' :: vs')).
  - apply py_min_least; [exact Hall|].
    apply Permutation_in with (v' :: vs'); [now symmetry|exact H2].
  - apply py_min_least; [exact Hall'|].
    apply Permutation_in with (v :: vs); [exact Hp|exact H1].
Qed.

Lemma py_max_permutation (v v' : float) (vs vs' : list float) :
  all_nonneg (v :: vs) -> Permutation (v :: vs) (v' :: vs') ->
  py_max v vs = py_max v' vs'.
Proof.
  intros Hall Hp.
  assert (Hall' : all_nonneg (v' :: vs')).
  { unfold all_nonneg in *. now rewrite <- Hp. }
  pose proof (py_max_in v vs) as H1. pose proof (py_max_in v' vs') as H2.
  apply fle_antisym.
  - now apply (all_nonneg_in (v :: vs)).
  - now apply (all_nonneg_in (v' :: vs')).
  - apply py_max_greatest; [exact Hall'|].
    apply Permutation_in with (v :: vs); [exact Hp|exact H1].
  - apply py_max_greatest; [exact Hall|].
    apply Permutation_in with (v' :: vs'); [now symmetry|exact H2].
Qed.

(** ** The comprehension under a permutation of the lines *)

Lemma tps_values_of_raises_ValueError (lines : list string) (e : exn) :
  tps_values_of lines = Raise e -> e = ValueError.
Proof.
  induction lines as [|line rest IH]; cbn [tps_values_of].
  - congruence.
  - destruct (search tps_pattern line) as [m|] eqn:Hs; [|exact IH].
    apply search_capture_alphabet in Hs. destruct Hs as (tok & Hg & _).
    unfold float_of_group. rewrite Hg.
    destruct (py_float tok) as [v|e'] eqn:Hv; simpl.
    + destruct (tps_values_of rest) as [vs|e'']; simpl; [congruence|].
      intros H. apply IH. congruence.
    + intros H. apply (py_float_raises tok). congruence.
Qed.

Lemma tps_values_of_permutation (lines lines' : list string) :
  Permutation lines lines' ->
  (forall vs, tps_values_of lines = Ok vs ->
              exists vs', tps_values_of lines' = Ok vs' /\ Permutation vs vs')
  /\ (forall e, tps_values_of lines = Raise e ->
                exists e', tps_values_of lines' = Raise e').
Proof.
  induction 1 as [|x l l' Hp [IHok IHr]|x y l|l l' l'' H1 [IH1 IH1r] H2 [IH2 IH2r]].
  - split.
    + intros vs Hvs. exists vs. split; [exact Hvs|apply Permutation_refl].
    + intros e He. now exists e.
  - cbn [tps_values_of].
    destruct (search tps_pattern x) as [m|]; [|now split].
    destruct (float_of_group m) as [v|e]; simpl.
    + split.
      * intros vs Hvs. destruct (tps_values_of l) as [ws|e]; simpl in *; [|congruence].
        injection Hvs as <-. destruct (IHok ws eq_refl) as (ws' & -> & Hws).
        simpl. eexists; split; [reflexivity|now constructor].
      * intros e He. destruct (tps_values_of l) as [ws|e0]; simpl in *; [congruence|].
        destruct (IHr e0 eq_refl) as (e' & ->). simpl. now exists e'.
    + split; intros; [congruence|now exists e].
  - cbn [tps_values_of].
    destruct (search tps_pattern x) as [mx|], (search tps_pattern y) as [my|];
      try destruct (float_of_group mx) as [vx|ex];
      try destruct (float_of_group my) as [vy|ey];
      destruct (tps_values_of l) as [ws|e0]; simpl;
      split; intros; try congruence;
      try (eexists; reflexivity);
      try match goal with
          | H : Ok _ = Ok _ |- _ => injection H as <-
          end;
      eexists; (split; [reflexivity|]);
      try apply perm_swap; try apply Permutation_refl.
  - split.
    + intros vs Hvs. destruct (IH1 vs Hvs) as (vs' & Hvs' & Hp1).
      destruct (IH2 vs' Hvs') as (vs'' & Hvs'' & Hp2).
      exists vs''. split; [exact Hvs''|now transitivity vs'].
    + intros e He. destruct (IH1r e He) as (e' & He'). now apply (IH2r e').
Qed.

(** ** The two commands of [test] differ *)

Lemma append_cancel_l (p a b : string) : p ++ a = p ++ b -> a = b.
Proof.
  induction p as [|c p IH]; simpl; [trivial|].
  intros H. injection H as H. now apply IH.
Qed.

Lemma commands_differ (self : Pgbench) :
  time_limited_command self <> transaction_count_command self.
Proof.
  unfold time_limited_command, transaction_count_command.
  intros H. apply append_cancel_l in H. simpl in H. discriminate H.
Qed.

(** Which command runs, for any parameters. *)
Lemma test_command_cases (self : Pgbench) :
  (0 < benchmark_duration self ->
   test_command self = time_limited_command self)
  /\ (test_command self = transaction_count_command self
      <-> benchmark_duration self <= 0).
Proof.
  unfold test_command.
  destruct (0 <? benchmark_duration self) eqn:E.
  - apply Z.ltb_lt in E. split; [reflexivity|]. split; [|lia].
    intros H. now apply commands_differ in H.
  - apply Z.ltb_ge in E. split; [lia|]. split; [intros _; exact E|reflexivity].
Qed.

(** What the validation leaves in [benchmark_duration]. *)
Lemma setUp_validation_duration (self : Pgbench) :
  benchmark_duration (fst (setUp_validation self))
  = (if (benchmark_duration self =? 0) && (transaction_count self =? 0)
     then 120 else benchmark_duration self)
  /\ transaction_count (fst (setUp_validation self)) = transaction_count self.
Proof.
  unfold setUp_validation.
  destruct (0 <? benchmark_duration self) eqn:E1,
           (0 <? transaction_count self) eqn:E2,
           (benchmark_duration self =? 0) eqn:E3,
           (transaction_count self =? 0) eqn:E4; simpl; split;
    try reflexivity; lia.
Qed.

(** * The claims *)

(** C1 (defect in the code): not every captured token parses.  On the
    log whose only line is [tps = 1.2.3] the pattern captures [1.2.3],
    [float] raises ValueError on it, and the exception leaves
    [extract_tps_stats] with nothing printed. *)
Theorem C1_malformed_token_escapes :
  search tps_pattern (line "tps = 1.2.3")
  = Some {| group1 := Some "1.2.3" |}
  /\ py_float "1.2.3" = Raise ValueError
  /\ forall alg,
      extract_tps_stats alg "test.log"
                        (single_file "test.log" [line "tps = 1.2.3"])
      = (Raise ValueError, single_file "test.log" [line "tps = 1.2.3"]).
Proof.
  split; [reflexivity|]. split; [reflexivity|].
  intros alg. reflexivity.
Qed.

(** C2 (defect in the code): a line that contains [tps = 1520.3], whose
    numeric token has digits and one decimal point, contributes no
    sample: the pattern also takes the full stop that ends the sentence,
    and the conversion of [1520.3.] raises ValueError. *)
Theorem C2_wellformed_prefix_not_sampled :
  line "average tps = 1520.3."
  = "average " ++ "tps" ++ " " ++ "=" ++ " " ++ "1520.3" ++ line "."
  /\ py_float "1520.3" = Ok (S754_finite false 6686350110831411 (-42))
  /\ search tps_pattern (line "average tps = 1520.3.")
     = Some {| group1 := Some "1520.3." |}
  /\ tps_values_of [line "average tps = 1520.3."] = Raise ValueError.
Proof.
  repeat apply conj; vm_compute; reflexivity.
Qed.

(** C3 counterexample: on three lines [tps = 112589990684262.40625] the
    average, under either summation, is above the maximum; the row shows
    [...262.41] for the minimum and the maximum and [...262.42] for the
    average. *)
Lemma C3_average_above_maximum :
  let x := S754_finite false 7205759403792794 (-6) in
  let log := [line "tps = 112589990684262.40625";
              line "tps = 112589990684262.40625";
              line "tps = 112589990684262.40625"] in
  tps_values_of log = Ok [x; x; x]
  /\ py_max x [x; x] = x
  /\ ~ (fle (average LeftToRight [x; x; x]) (py_max x [x; x]) = true)
  /\ ~ (fle (average Neumaier [x; x; x]) (py_max x [x; x]) = true)
  /\ stats_row LeftToRight x [x; x]
     = "112589990684262.41112589990684262.41112589990684262.42"
  /\ stats_row Neumaier x [x; x]
     = "112589990684262.41112589990684262.41112589990684262.42".
Proof.
  repeat apply conj; try (vm_compute; reflexivity); vm_compute; discriminate.
Qed.

(** The same happens on everyday values: the average of three samples
    [0.1] is the float just above [0.1]. *)
Example average_of_three_tenths :
  let x := S754_finite false 7205759403792794 (-56) in
  py_float "0.1" = Ok x
  /\ average LeftToRight [x; x; x] = S754_finite false 7205759403792795 (-56)
  /\ average Neumaier [x; x; x] = S754_finite false 7205759403792795 (-56).
Proof. repeat apply conj; vm_compute; reflexivity. Qed.

(** C3 (amended): when the log yields the samples [v :: vs], the row
    printed shows [min], [max] and [sum / len] of the samples to two
    decimals; the minimum and the maximum are samples, the minimum is
    below or equal to every sample and the maximum above or equal to
    every sample; the average is the float quotient of the float sum, in
    file order, by the count.  (Nothing is said on where the average
    lies.) *)
Theorem C3_min_max_average (alg : sum_algorithm) (path : string) (w : world)
        (lines : list string) (v : float) (vs : list float) :
  fs w path = Some lines ->
  tps_values_of lines = Ok (v :: vs) ->
  extract_tps_stats alg path w = (Ok tt, emit w (stats_output alg v vs))
  /\ stats_row alg v vs
     = field_2f (py_min v vs) ++ field_2f (py_max v vs)
       ++ field_2f (average alg (v :: vs))
  /\ In (py_min v vs) (v :: vs)
  /\ In (py_max v vs) (v :: vs)
  /\ (forall x, In x (v :: vs) ->
                fle (py_min v vs) x = true /\ fle x (py_max v vs) = true)
  /\ average alg (v :: vs)
     = fdiv (py_sum alg (v :: vs))
            (float_of_int (Z.of_nat (List.length (v :: vs)))).
Proof.
  intros Hfile Hvalues.
  pose proof (tps_values_of_nonneg lines (v :: vs) Hvalues) as Hall.
  split.
  { rewrite extract_tps_stats_report, Hfile. unfold report.
    now rewrite Hvalues. }
  split; [reflexivity|].
  split; [apply py_min_in|]. split; [apply py_max_in|].
  split; [|reflexivity].
  intros x Hx. split.
  - now apply py_min_least.
  - now apply py_max_greatest.
Qed.

Lemma C3_min_max_average_witness :
  let lines := [line "tps = 7.5"; line "tps = 2.25"] in
  let w := single_file "test.log" lines in
  let v := S754_finite false 8444249301319680 (-50) in
  let vs := [S754_finite false 5066549580791808 (-51)] in
  fs w "test.log" = Some lines
  /\ tps_values_of lines = Ok (v :: vs)
  /\ extract_tps_stats Neumaier "test.log" w
     = (Ok tt, emit w (stats_output Neumaier v vs))
  /\ stats_row Neumaier v vs
     = field_2f (py_min v vs) ++ field_2f (py_max v vs)
       ++ field_2f (average Neumaier (v :: vs))
  /\ In (py_min v vs) (v :: vs)
  /\ In (py_max v vs) (v :: vs)
  /\ (forall x, In x (v :: vs) ->
                fle (py_min v vs) x = true /\ fle x (py_max v vs) = true)
  /\ average Neumaier (v :: vs)
     = fdiv (py_sum Neumaier (v :: vs))
            (float_of_int (Z.of_nat (List.length (v :: vs)))).
Proof.
  intros lines w v vs.
  split; [reflexivity|]. split; [vm_compute; reflexivity|].
  apply (C3_min_max_average Neumaier "test.log" w lines v vs).
  - reflexivity.
  - vm_compute. reflexivity.
Defined.

(** C4: when the file exists and no line matches, the extractor prints
    the one line [No TPS values found in the log file.], no table, and
    returns normally. *)
Theorem C4_no_match_reports_no_data (alg : sum_algorithm) (path : string)
        (w : world) (lines : list string) :
  fs w path = Some lines ->
  (forall l, In l lines -> search tps_pattern l = None) ->
  extract_tps_stats alg path w
  = (Ok tt, emit w [Text "No TPS values found in the log file."]).
Proof.
  intros Hfile Hnone.
  assert (Hv : tps_values_of lines = Ok []).
  { clear Hfile. induction lines as [|l rest IH]; [reflexivity|].
    cbn [tps_values_of]. rewrite (Hnone l) by now left.
    apply IH. intros l' Hl'. apply Hnone. now right. }
  rewrite extract_tps_stats_report, Hfile. unfold report. now rewrite Hv.
Qed.

Lemma C4_no_match_reports_no_data_witness :
  let lines := [line "starting vacuum...end."; line "TPS = 12"] in
  let w := single_file "payload.log" lines in
  fs w "payload.log" = Some lines
  /\ (forall l, In l lines -> search tps_pattern l = None)
  /\ extract_tps_stats LeftToRight "payload.log" w
     = (Ok tt, emit w [Text "No TPS values found in the log file."]).
Proof.
  intros lines w.
  assert (Hnone : forall l, In l lines -> search tps_pattern l = None).
  { intros l [<-|[<-|[]]]; reflexivity. }
  split; [reflexivity|]. split; [exact Hnone|].
  apply (C4_no_match_reports_no_data LeftToRight "payload.log" w lines).
  - reflexivity.
  - exact Hnone.
Defined.



(** C6 counterexample: on the example log the minimum is not shown as
    [99.99]: the float nearest to 99.999 rounds to [100.00] at two
    decimals. *)
Lemma C6_minimum_not_99_99 :
  tps_values_of example_log = Ok [f120_5; f135; f99_999]
  /\ py_min f120_5 [f135; f99_999] = f99_999
  /\ format_2f f99_999 = "100.00"
  /\ format_2f f99_999 <> "99.99".
Proof.
  repeat apply conj; try (vm_compute; reflexivity). vm_compute. discriminate.
Qed.

(** C6 (amended): on the example log the extractor captures the floats
    nearest to 120.5, 135.0 and 99.999, in file order, and the row shows
    min = 100.00, max = 135.00 and average = 118.50, under either
    summation. *)
Theorem C6_example_log (alg : sum_algorithm) :
  py_float "120.5" = Ok f120_5
  /\ py_float "135.0" = Ok f135
  /\ py_float "99.999" = Ok f99_999
  /\ tps_values_of example_log = Ok [f120_5; f135; f99_999]
  /\ format_2f (py_min f120_5 [f135; f99_999]) = "100.00"
  /\ format_2f (py_max f120_5 [f135; f99_999]) = "135.00"
  /\ format_2f (average alg [f120_5; f135; f99_999]) = "118.50"
  /\ extract_tps_stats alg "test.log" (single_file "test.log" example_log)
     = (Ok tt,
        emit (single_file "test.log" example_log)
             [ CapturedValues [f120_5; f135; f99_999];
               Text (String newline "TPS Statistics");
               Text "Min            Max            Average        ";
               Text "---------------------------------------------";
               Text "100.00         135.00         118.50         " ]).
Proof.
  destruct alg; repeat apply conj; vm_compute; reflexivity.
Qed.

(** C7 counterexample: the two logs are permutations of each other, and
    their averages differ, under either summation, also as displayed. *)
Lemma C7_average_depends_on_order :
  Permutation descending_log ascending_log
  /\ (exists vs vs',
         tps_values_of descending_log = Ok vs
         /\ tps_values_of ascending_log = Ok vs'
         /\ average LeftToRight vs = S754_finite false 4503599627370496 52
         /\ average LeftToRight vs' = S754_finite false 4503599627370497 52
         /\ average Neumaier vs = S754_finite false 4503599627370496 52
         /\ average Neumaier vs' = S754_finite false 4503599627370497 52
         /\ format_2f (average LeftToRight vs)
            = "20282409603651670423947251286016.00"
         /\ format_2f (average LeftToRight vs')
            = "20282409603651674927546878656512.00"
         /\ format_2f (average Neumaier vs)
            <> format_2f (average Neumaier vs')).
Proof.
  split; [apply Permutation_rev|].
  eexists. eexists.
  split; [vm_compute; reflexivity|].
  split; [vm_compute; reflexivity|].
  repeat apply conj; try (vm_compute; reflexivity).
  vm_compute. discriminate.
Qed.

(** C7 (amended): for every permutation of the lines of a log, the
    extraction fails on both or on neither; when it succeeds the samples
    are the same up to their order, and so are their count, their
    minimum and their maximum.  (Nothing is said on the average, which
    is summed in file order.) *)
Theorem C7_min_max_order_independent (lines lines' : list string) :
  Permutation lines lines' ->
  match tps_values_of lines, tps_values_of lines' with
  | Ok [], Ok [] => True
  | Ok (v :: vs), Ok (v' :: vs') =>
      Permutation (v :: vs) (v' :: vs')
      /\ List.length (v :: vs) = List.length (v' :: vs')
      /\ py_min v vs = py_min v' vs'
      /\ py_max v vs = py_max v' vs'
  | Raise e, Raise e' => e = e'
  | _, _ => False
  end.
Proof.
  intros Hp.
  destruct (tps_values_of_permutation lines lines' Hp) as [Hok Hraise].
  destruct (tps_values_of lines) as [vs|e] eqn:Hl.
  - destruct (Hok vs eq_refl) as (vs' & -> & Hvs).
    pose proof (tps_values_of_nonneg lines vs Hl) as Hall.
    destruct vs as [|v vs], vs' as [|v' vs']; trivial.
    + now apply Permutation_nil in Hvs.
    + symmetry in Hvs. now apply Permutation_nil in Hvs.
    + repeat apply conj.
      * exact Hvs.
      * now apply Permutation_length.
      * now apply py_min_permutation.
      * now apply py_max_permutation.
  - destruct (Hraise e eq_refl) as (e' & He'). rewrite He'.
    apply tps_values_of_raises_ValueError in Hl, He'. congruence.
Qed.

Lemma C7_min_max_order_independent_witness :
  Permutation descending_log ascending_log
  /\ match tps_values_of descending_log, tps_values_of ascending_log with
     | Ok [], Ok [] => True
     | Ok (v :: vs), Ok (v' :: vs') =>
         Permutation (v :: vs) (v' :: vs')
         /\ List.length (v :: vs) = List.length (v' :: vs')
         /\ py_min v vs = py_min v' vs'
         /\ py_max v vs = py_max v' vs'
     | Raise e, Raise e' => e = e'
     | _, _ => False
     end.
Proof.
  split.
  - apply Permutation_rev.
  - apply (C7_min_max_order_independent descending_log ascending_log).
    apply Permutation_rev.
Defined.

(** C8: a run of the extractor leaves the files as they were and only
    appends to the output; a second run on the resulting world has the
    same outcome and appends the same output once more. *)
Theorem C8_second_run_identical (alg : sum_algorithm) (path : string)
        (w : world) :
  let (r1, w1) := extract_tps_stats alg path w in
  let (r2, w2) := extract_tps_stats alg path w1 in
  r2 = r1
  /\ fs w1 = fs w
  /\ fs w2 = fs w
  /\ exists out, stdout w1 = (stdout w ++ out)%list
                 /\ stdout w2 = (stdout w1 ++ out)%list.
Proof.
  rewrite (extract_tps_stats_report alg path w).
  rewrite (extract_tps_stats_report alg path (emit w _)).
  cbn [fs emit].
  split; [reflexivity|]. split; [reflexivity|]. split; [reflexivity|].
  exists (snd (report alg path (fs w path))). split; reflexivity.
Qed.

(** C9: on the line [https = 5] no match starts at the first or at the
    second character, one starts at the third, inside the word: the
    sample 5.0 is captured and reported. *)
Theorem C9_tps_inside_a_word :
  match_at tps_pattern (line "https = 5") = None
  /\ match_at tps_pattern (line "ttps = 5") = None
  /\ match_at tps_pattern (line "tps = 5") = Some {| group1 := Some "5" |}
  /\ search tps_pattern (line "https = 5") = Some {| group1 := Some "5" |}
  /\ tps_values_of [line "https = 5"]
     = Ok [S754_finite false 5629499534213120 (-50)]
  /\ forall alg,
      extract_tps_stats alg "test.log"
                        (single_file "test.log" [line "https = 5"])
      = (Ok tt,
         emit (single_file "test.log" [line "https = 5"])
              [ CapturedValues [S754_finite false 5629499534213120 (-50)];
                Text (String newline "TPS Statistics");
                Text "Min            Max            Average        ";
                Text "---------------------------------------------";
                Text "5.00           5.00           5.00           " ]).
Proof.
  do 5 (split; [vm_compute; reflexivity|]).
  intros alg. destruct alg; vm_compute; reflexivity.
Qed.

(** C10 counterexample: with a duration of -1 and a transaction count of
    0 the validation changes nothing and [test] runs the
    transaction-count command, although the duration is not zero and the
    count is not positive. *)
Lemma C10_transactions_without_count :
  fst (setUp_validation negative_duration) = negative_duration
  /\ test_command (fst (setUp_validation negative_duration))
     = transaction_count_command (fst (setUp_validation negative_duration))
  /\ test_command (fst (setUp_validation negative_duration))
     = "pgbench --protocol=prepared --jobs=8 --scale=100 --client=8  -n --transactions=0 -r pgbench"
  /\ benchmark_duration (fst (setUp_validation negative_duration)) <> 0
  /\ ~ 0 < transaction_count (fst (setUp_validation negative_duration)).
Proof.
  repeat apply conj; try (vm_compute; reflexivity); vm_compute; congruence.
Qed.

(** C10 (amended): when both parameters are zero the validation sets
    the duration to 120; whenever the duration is then positive, [test]
    runs the time-limited command, whatever the transaction count; it
    runs the transaction-count command exactly when the duration is not
    positive after the validation, which for a non-negative duration and
    a non-negative transaction count means that the duration is zero and
    the transaction count positive. *)
Theorem C10_command_selection (self : Pgbench) :
  let self' := fst (setUp_validation self) in
  (benchmark_duration self = 0 /\ transaction_count self = 0 ->
   benchmark_duration self' = 120)
  /\ (0 < benchmark_duration self' ->
      test_command self' = time_limited_command self'
      /\ forall t, test_command (with_transaction_count self' t)
                   = test_command self')
  /\ (test_command self' = transaction_count_command self'
      <-> benchmark_duration self' <= 0)
  /\ (0 <= benchmark_duration self -> 0 <= transaction_count self ->
      test_command self' = transaction_count_command self' ->
      benchmark_duration self' = 0 /\ 0 < transaction_count self').
Proof.
  intros self'.
  destruct (setUp_validation_duration self) as [Hd' Ht']. fold self' in Hd', Ht'.
  split; [|split; [|split]].
  - intros [H1 H2]. rewrite Hd', H1, H2. reflexivity.
  - intros Hpos. split.
    + now apply test_command_cases.
    + intros t. unfold test_command.
      cbn [with_transaction_count benchmark_duration].
      apply Z.ltb_lt in Hpos. rewrite Hpos. reflexivity.
  - apply test_command_cases.
  - intros Hd Ht Hcmd. apply test_command_cases in Hcmd.
    rewrite Hd' in *. rewrite Ht'.
    destruct (benchmark_duration self =? 0) eqn:E1,
             (transaction_count self =? 0) eqn:E2; simpl in *; lia.
Qed.

Lemma C10_command_selection_witness :
  let self0 := {| scaling_factor := 100; worker_threads := 8;
                  db_clients := 8; protocol := "prepared";
                  benchmark_duration := 0; transaction_count := 5000;
                  workload_iteration := 10 |} in
  let self' := fst (setUp_validation self0) in
  0 <= benchmark_duration self0
  /\ 0 <= transaction_count self0
  /\ test_command self' = transaction_count_command self'
  /\ benchmark_duration self' = 0
  /\ 0 < transaction_count self'.
Proof.
  intros self0 self'.
  assert (Hd : 0 <= benchmark_duration self0) by (simpl; lia).
  assert (Ht : 0 <= transaction_count self0) by (simpl; lia).
  assert (Hcmd : test_command self' = transaction_count_command self')
    by reflexivity.
  split; [exact Hd|]. split; [exact Ht|]. split; [exact Hcmd|].
  exact (proj2 (proj2 (proj2 (C10_command_selection self0))) Hd Ht Hcmd).
Defined.

(** * Further properties of the extractor *)




(** X3: a captured sample is never negative and never a NaN: it is
    zero, a positive finite float or plus infinity. *)
Theorem samples_are_nonneg (lines : list string) (vs : list float) (v : float) :
  tps_values_of lines = Ok vs -> In v vs -> nonneg v = true.
Proof.
  intros Hvs Hin. apply (all_nonneg_in vs); [|exact Hin].
  now apply (tps_values_of_nonneg lines).
Qed.

Lemma samples_are_nonneg_witness :
  tps_values_of example_log = Ok [f120_5; f135; f99_999]
  /\ In f135 [f120_5; f135; f99_999]
  /\ nonneg f135 = true.
Proof.
  assert (H : tps_values_of example_log = Ok [f120_5; f135; f99_999])
    by (vm_compute; reflexivity).
  assert (Hin : In f135 [f120_5; f135; f99_999]) by (right; now left).
  split; [exact H|]. split; [exact Hin|].
  exact (samples_are_nonneg example_log _ f135 H Hin).
Defined.

(** X4: the samples are, in file order, one per matching line: the
    conversion of what the leftmost match of that line captured. *)
Theorem one_sample_per_matching_line (lines : list string) (vs : list float) :
  tps_values_of lines = Ok vs ->
  Forall2 (fun l v => exists m, search tps_pattern l = Some m
                                /\ float_of_group m = Ok v)
          (filter (fun l => match search tps_pattern l with
                            | Some _ => true
                            | None => false
                            end) lines)
          vs.
Proof.
  revert vs. induction lines as [|l rest IH]; intros vs; cbn [tps_values_of filter].
  - intros H. injection H as <-. constructor.
  - destruct (search tps_pattern l) as [m|] eqn:Hs; [|apply IH].
    destruct (float_of_group m) as [v|e] eqn:Hm; cbn [rbind]; [|congruence].
    destruct (tps_values_of rest) as [ws|e]; cbn [rbind]; [|congruence].
    intros H. injection H as <-. constructor.
    + now exists m.
    + now apply IH.
Qed.

Lemma one_sample_per_matching_line_witness :
  tps_values_of example_log = Ok [f120_5; f135; f99_999]
  /\ Forall2 (fun l v => exists m, search tps_pattern l = Some m
                                   /\ float_of_group m = Ok v)
             (filter (fun l => match search tps_pattern l with
                               | Some _ => true
                               | None => false
                               end) example_log)
             [f120_5; f135; f99_999].
Proof.
  assert (H : tps_values_of example_log = Ok [f120_5; f135; f99_999])
    by (vm_compute; reflexivity).
  split; [exact H|].
  exact (one_sample_per_matching_line example_log _ H).
Defined.

(** X5: a line is matched exactly when, somewhere in it, [tps] is
    followed by blanks, [=], blanks and a digit or a dot. *)
Theorem line_matches_iff (l : string) :
  (exists m, search tps_pattern l = Some m)
  <-> (exists pre s ws1 ws2 tok rest,
          l = pre ++ s /\ tps_form s ws1 ws2 tok rest).
Proof.
  split.
  - intros [m Hm].
    destruct (search_some_form l m Hm)
      as (pre & s & ws1 & ws2 & tok & rest & Hl & Hf & _).
    now exists pre, s, ws1, ws2, tok, rest.
  - intros (pre & s & ws1 & ws2 & tok & rest & -> & Hf).
    now apply (search_form_some pre s ws1 ws2 tok rest).
Qed.

(** X6: the samples of two logs put end to end are the samples of the
    first followed by those of the second; a failing conversion in the
    first hides the second. *)
Theorem tps_values_of_app (a b : list string) :
  tps_values_of (a ++ b)
  = rbind (tps_values_of a) (fun x =>
    rbind (tps_values_of b) (fun y => Ok (x ++ y)%list)).
Proof.
  induction a as [|l a IH]; cbn [app tps_values_of].
  - cbn [rbind]. destruct (tps_values_of b); reflexivity.
  - destruct (search tps_pattern l) as [m|]; [|exact IH].
    destruct (float_of_group m) as [v|e]; cbn [rbind]; [|reflexivity].
    rewrite IH.
    destruct (tps_values_of a) as [x|e]; cbn [rbind]; [|reflexivity].
    destruct (tps_values_of b) as [y|e]; reflexivity.
Qed.

(** * Properties of the test around the extractor *)

(** ** Stepping through a method *)

Lemma tbind_inv {A B : Type} (c : T A) (f : A -> T B) (m : machine)
      (r : outcome B) (m' : machine) :
  tbind c f m = (r, m') ->
  (exists a m1, c m = (Done a, m1) /\ f a m1 = (r, m'))
  \/ (exists msg, c m = (Cancelled msg, m') /\ r = Cancelled msg)
  \/ (exists e, c m = (Failed e, m') /\ r = Failed e).
Proof.
  unfold tbind. destruct (c m) as [[a|msg|e] m1]; intros H.
  - left. now exists a, m1.
  - right; left. injection H as <- <-. now exists msg.
  - right; right. injection H as <- <-. now exists e.
Qed.

Lemma tbind_done {A B : Type} (c : T A) (f : A -> T B) (m : machine)
      (b : B) (m' : machine) :
  tbind c f m = (Done b, m') ->
  exists a m1, c m = (Done a, m1) /\ f a m1 = (Done b, m').
Proof.
  intros H. apply tbind_inv in H.
  destruct H as [H|[(msg & _ & H)|(e & _ & H)]]; [exact H| |]; discriminate H.
Qed.

Lemma add_events_nil (m : machine) : add_events m [] = m.
Proof.
  destruct m. unfold add_events. cbn. now rewrite app_nil_r.
Qed.

Lemma add_events_app (m : machine) (a b : list event) :
  add_events (add_events m a) b = add_events m (a ++ b).
Proof.
  unfold add_events. cbn. now rewrite app_assoc.
Qed.

Lemma installs_app (a b : list event) :
  installs (a ++ b) = (installs a ++ installs b)%list.
Proof.
  induction a as [|e a IH]; [reflexivity|].
  destruct e; cbn [app installs]; rewrite IH; reflexivity.
Qed.

Lemma removes_app (a b : list event) :
  removes (a ++ b) = (removes a ++ removes b)%list.
Proof.
  induction a as [|e a IH]; [reflexivity|].
  destruct e; cbn [app removes]; rewrite IH; reflexivity.
Qed.

Lemma runs_app (a b : list event) :
  runs (a ++ b) = (runs a ++ runs b)%list.
Proof.
  induction a as [|e a IH]; [reflexivity|].
  destruct e; cbn [app runs]; rewrite IH; reflexivity.
Qed.

(** ** [run_cmd] *)

Lemma run_cmd_cases (env : environment) (cmd : string) (b : bool)
      (m : machine) :
  let r := process_run env (trace m) cmd in
  (exit_status r = 0
   /\ run_cmd env cmd b m
      = (Done (exit_status r, stdout_text r), add_events m [Run cmd r]))
  \/ (exit_status r <> 0 /\ b = true
      /\ run_cmd env cmd b m
         = (Done (exit_status r, stderr_text r),
            add_events m [Run cmd r; LogInfo (failure_text cmd r)]))
  \/ (exit_status r <> 0 /\ b = false
      /\ run_cmd env cmd b m
         = (Cancelled (failure_text cmd r), add_events m [Run cmd r])).
Proof.
  intros r. unfold run_cmd, tbind, record_event, log_info, tret, cancel, truthy.
  fold r. cbn [trace already_installed files console].
  destruct (exit_status r =? 0) eqn:E; cbn [negb andb].
  - apply Z.eqb_eq in E. left. split; [exact E|reflexivity].
  - apply Z.eqb_neq in E. right. destruct b; cbn [negb andb].
    + left. split; [exact E|]. split; [reflexivity|].
      unfold add_events, failure_text. cbn. now rewrite <- app_assoc.
    + right. now repeat split.
Qed.

(** X7: [run_cmd] runs the command once and changes nothing else.  It
    returns the exit status with the standard output when the command
    succeeds, and with the error text when it fails and failures are
    ignored; when it fails and failures are not ignored the test is
    cancelled: a status other than 0 is returned only under
    [ignore_failure].  [run_cmd] raises nothing of its own. *)
Theorem run_cmd_contract (env : environment) (cmd : string)
        (ignore_failure : bool) (m : machine) :
  let r := process_run env (trace m) cmd in
  match run_cmd env cmd ignore_failure m with
  | (Done (status, text), m') =>
      status = exit_status r
      /\ (status = 0 -> text = stdout_text r)
      /\ (status <> 0 -> ignore_failure = true /\ text = stderr_text r)
      /\ runs (trace m') = (runs (trace m) ++ [(cmd, r)])%list
      /\ files m' = files m /\ console m' = console m
      /\ already_installed m' = already_installed m
  | (Cancelled _, m') =>
      ignore_failure = false /\ exit_status r <> 0
      /\ runs (trace m') = (runs (trace m) ++ [(cmd, r)])%list
      /\ files m' = files m /\ console m' = console m
      /\ already_installed m' = already_installed m
  | (Failed _, _) => False
  end.
Proof.
  intros r.
  destruct (run_cmd_cases env cmd ignore_failure m)
    as [(Hr & ->)|[(Hr & Hb & ->)|(Hr & Hb & ->)]]; fold r in Hr |- *;
    cbn [add_events trace files console already_installed];
    rewrite runs_app; cbn [runs]; repeat apply conj;
    try reflexivity; try assumption; try congruence; try (now intros _).
Qed.

(** ** [get_distro_name], [install_and_initialize_postgres], [tearDown] *)

Lemma record_event_eq (e : event) (m : machine) :
  record_event e m = (Done tt, add_events m [e]).
Proof. reflexivity. Qed.

Lemma for_each_record {A : Type} (f : A -> event) (l : list A) (m : machine) :
  for_each l (fun x => record_event (f x)) m
  = (Done tt, add_events m (map f l)).
Proof.
  revert m. induction l as [|x l IH]; intros m; cbn [for_each map].
  - unfold tret. now rewrite add_events_nil.
  - unfold tbind. rewrite record_event_eq, IH, add_events_app. reflexivity.
Qed.

Lemma server_distro_supported (name : string) :
  in_list name ["fedora"; "rhel"] = true ->
  in_list name ["debian"; "fedora"; "rhel"; "SuSE"] = true.
Proof.
  unfold in_list. cbn [existsb].
  destruct (String.eqb name "debian"), (String.eqb name "fedora"),
           (String.eqb name "rhel"); cbn; congruence.
Qed.

(** What [tearDown] asks of the distribution is what [setUp] asked. *)
Lemma tearDown_server_test (env : environment) :
  match get_distro_name env with
  | Some distro_name => in_list distro_name ["fedora"; "rhel"]
  | None => false
  end = in_list (detect_name env) ["fedora"; "rhel"].
Proof.
  unfold get_distro_name.
  destruct (in_list (detect_name env) ["debian"; "fedora"; "rhel"; "SuSE"])
    eqn:E; [reflexivity|].
  destruct (in_list (detect_name env) ["fedora"; "rhel"]) eqn:E';
    [|reflexivity].
  apply server_distro_supported in E'. congruence.
Qed.

(** [run_cmd] with failures ignored always returns. *)
Lemma run_cmd_ignoring (env : environment) (cmd : string) (m : machine) :
  exists status text evs,
    run_cmd env cmd true m = (Done (status, text), add_events m evs)
    /\ installs evs = [] /\ removes evs = []
    /\ runs evs = [(cmd, process_run env (trace m) cmd)].
Proof.
  destruct (run_cmd_cases env cmd true m)
    as [(_ & H)|[(_ & _ & H)|(_ & Hb & _)]]; [| |discriminate Hb];
    rewrite H; do 3 eexists; repeat apply conj; reflexivity.
Qed.

(** X8: [tearDown] is never cancelled, whatever [dropdb] answers: its
    failure is ignored.  It removes the packages of this distribution
    when [already_installed] is false and no package otherwise; it
    installs nothing, writes no file and prints nothing. *)
Theorem tearDown_completes (env : environment) (m : machine) :
  exists m',
    tearDown env m = (Done tt, m')
    /\ removes (trace m')
       = (removes (trace m)
          ++ (if already_installed m then [] else postgres_packages env))%list
    /\ installs (trace m') = installs (trace m)
    /\ files m' = files m /\ console m' = console m.
Proof.
  unfold tearDown.
  destruct (run_cmd_ignoring env "dropdb pgbench" m)
    as (status & text & evs & Hrun & Hi & Hr & _).
  unfold tbind at 1. rewrite Hrun.
  unfold tbind at 1. unfold tret at 1.
  cbn [add_events already_installed].
  destruct (already_installed m); cbn [negb].
  - unfold tret. eexists. split; [reflexivity|].
    cbn [add_events trace files console].
    rewrite removes_app, installs_app, Hi, Hr, !app_nil_r. now repeat split.
  - unfold tbind at 1. rewrite (for_each_record Remove), add_events_app.
    pose proof (tearDown_server_test env) as Hs.
    unfold postgres_packages.
    destruct (get_distro_name env) as [d|];
      [destruct (in_list d ["fedora"; "rhel"])|]; rewrite <- Hs;
      [rewrite record_event_eq, add_events_app|unfold tret..];
      (eexists; split; [reflexivity|]);
      cbn [add_events trace files console];
      rewrite !removes_app, !installs_app, Hi, Hr;
      cbn [map removes installs app]; rewrite ?app_nil_r;
      now repeat split.
Qed.

(** ** [setUp] *)

(** The three ways [install_and_initialize_postgres] can go. *)
Lemma install_cases (env : environment) (m : machine) :
  let d := detect_name env in
  let m3 := add_events m (map Install (postgres_packages env)) in
  let ri := process_run env (trace m3) "postgresql-setup --initdb" in
  (in_list d ["fedora"; "rhel"] = false
   /\ install_and_initialize_postgres env d m = (Done tt, m3))
  \/ (in_list d ["fedora"; "rhel"] = true
      /\ (exit_status ri = 0 \/ contains "not empty" (stderr_text ri) = true)
      /\ exists evs,
          install_and_initialize_postgres env d m
          = (Done tt, add_events m3 evs)
          /\ installs evs = [] /\ removes evs = []
          /\ runs evs = [("postgresql-setup --initdb", ri)])
  \/ (in_list d ["fedora"; "rhel"] = true
      /\ exit_status ri <> 0
      /\ contains "not empty" (stderr_text ri) = false
      /\ exists evs,
          install_and_initialize_postgres env d m
          = (Cancelled ("Failed to initialize postgres - " ++ stderr_text ri),
             add_events m3 evs)
          /\ installs evs = [] /\ removes evs = []).
Proof.
  intros d m3 ri.
  remember (install_and_initialize_postgres env d m) as res eqn:Hres.
  unfold install_and_initialize_postgres in Hres.
  unfold tbind at 1 in Hres. rewrite (for_each_record Install) in Hres.
  subst m3. unfold postgres_packages in *. fold d in ri |- *.
  destruct (in_list d ["fedora"; "rhel"]) eqn:Hd.
  - right. cbn [map app] in ri |- *.
    unfold tbind at 1 in Hres.
    rewrite record_event_eq, add_events_app in Hres. cbn [map app] in Hres.
    set (m3 := add_events m _) in *.
    unfold tbind at 1 in Hres.
    destruct (run_cmd_cases env "postgresql-setup --initdb" true m3)
      as [(Hr & Hrun)|[(Hr & _ & Hrun)|(_ & Hb & _)]]; [| |discriminate Hb];
      fold ri in Hr, Hrun; rewrite Hrun in Hres; cbn [fst snd] in Hres;
      unfold truthy in Hres.
    + left. rewrite Hr in Hres. cbn [Z.eqb negb andb] in Hres.
      unfold tret in Hres. subst res.
      split; [reflexivity|]. split; [now left|].
      eexists. now repeat split.
    + pose proof Hr as Hr'. apply Z.eqb_neq in Hr'. rewrite Hr' in Hres.
      cbn [negb andb] in Hres.
      destruct (contains "not empty" (stderr_text ri)) eqn:Hc;
        cbn [negb] in Hres; subst res.
      * left. unfold tret. split; [reflexivity|]. split; [now right|].
        eexists. now repeat split.
      * right. unfold cancel.
        split; [reflexivity|]. split; [exact Hr|]. split; [reflexivity|].
        eexists. now repeat split.
  - left. unfold tret in Hres. subst res. now split.
Qed.

Lemma installs_map_Install (l : list string) : installs (map Install l) = l.
Proof. induction l as [|x l IH]; cbn; [reflexivity|now rewrite IH]. Qed.

Lemma removes_map_Install (l : list string) : removes (map Install l) = [].
Proof. induction l as [|x l IH]; cbn; [reflexivity|exact IH]. Qed.

(** X9: without root privileges [setUp] cancels the test at once: no
    package is installed, no command is run, nothing is changed. *)
Theorem setUp_requires_root (env : environment) (m : machine) :
  geteuid env <> 0 ->
  setUp env m
  = (Cancelled "This script requires root privileges, Please try again with 'sudo' or as 'root'",
     m).
Proof.
  intros Hroot. apply Z.eqb_neq in Hroot.
  unfold setUp. unfold tbind at 1. rewrite Hroot. reflexivity.
Qed.

(** X10: as root, when pgbench is not installed and the distribution is
    none of debian, fedora, rhel and SuSE, [setUp] cancels the test
    with nothing installed and no command run. *)
Theorem setUp_unsupported_distribution (env : environment) (m : machine) :
  geteuid env = 0 ->
  check_installed env (trace m) "pgbench" = false ->
  in_list (detect_name env) ["debian"; "fedora"; "rhel"; "SuSE"] = false ->
  setUp env m = (Cancelled "Unsupported Linux distribution", m).
Proof.
  intros Hroot Hinst Hdist.
  unfold setUp. unfold tbind at 1. rewrite Hroot. cbn [Z.eqb negb].
  unfold tret at 1. unfold tbind at 1. unfold tret at 1. rewrite Hinst.
  unfold tbind at 1. unfold get_distro_name. rewrite Hdist. reflexivity.
Qed.

Lemma run_cmd_done (env : environment) (cmd : string) (b : bool)
      (m : machine) (out : Z * string) (m1 : machine) :
  run_cmd env cmd b m = (Done out, m1) ->
  exists r evs,
    r = process_run env (trace m) cmd
    /\ m1 = add_events m evs /\ installs evs = [] /\ removes evs = []
    /\ runs evs = [(cmd, r)]
    /\ ((exit_status r = 0 /\ out = (0, stdout_text r))
        \/ (exit_status r <> 0 /\ b = true
            /\ out = (exit_status r, stderr_text r))).
Proof.
  intros H. exists (process_run env (trace m) cmd).
  destruct (run_cmd_cases env cmd b m)
    as [(Hr & Hrun)|[(Hr & Hb & Hrun)|(Hr & _ & Hrun)]];
    rewrite Hrun in H; [| |discriminate H];
    injection H as <- <-; eexists; repeat apply conj;
    try reflexivity.
  - left. rewrite Hr. now split.
  - right. now repeat split.
Qed.

(** What a completed [setUp] went through. *)
Lemma setUp_done (env : environment) (m : machine) (self : Pgbench)
      (m1 : machine) :
  setUp env m = (Done self, m1) ->
  geteuid env = 0
  /\ self = fst (setUp_validation (read_params env))
  /\ exists ma evs ru r1 r2,
      ((check_installed env (trace m) "pgbench" = true
        /\ ma = add_events m [LogInfo "Pgbench is already installed"])
       \/ (check_installed env (trace m) "pgbench" = false
           /\ exists evs0,
               ma = with_already_installed
                      (add_events m (map Install (postgres_packages env)
                                     ++ evs0)) false
               /\ installs evs0 = [] /\ removes evs0 = []))
      /\ m1 = add_events ma evs
      /\ installs evs = [] /\ removes evs = []
      /\ runs evs
         = [("sudo -u postgres createuser --superuser " ++ getlogin env, ru);
            ("createdb pgbench", r1);
            ("pgbench -i -s " ++ str_of_int (scaling_factor self)
             ++ " -n pgbench", r2)]
      /\ (exit_status ru = 0
          \/ contains "already exists" (stderr_text ru) = true)
      /\ exit_status r1 = 0 /\ exit_status r2 = 0.
Proof.
  intros H. unfold setUp in H.
  (* the root check *)
  apply tbind_done in H. destruct H as (u0 & m0 & Hroot & H).
  destruct (geteuid env =? 0) eqn:Eroot; cbn [negb] in Hroot;
    [|discriminate Hroot].
  apply Z.eqb_eq in Eroot. injection Hroot as _ <-.
  split; [exact Eroot|].
  (* is pgbench installed? *)
  apply tbind_done in H. destruct H as (installed & m0' & Hq & H).
  injection Hq as <- <-.
  (* the installation *)
  apply tbind_done in H. destruct H as (u1 & ma & Hinst & H).
  assert (Hma :
    (check_installed env (trace m) "pgbench" = true
     /\ ma = add_events m [LogInfo "Pgbench is already installed"])
    \/ (check_installed env (trace m) "pgbench" = false
        /\ exists evs0,
            ma = with_already_installed
                   (add_events m (map Install (postgres_packages env)
                                  ++ evs0)) false
            /\ installs evs0 = [] /\ removes evs0 = [])).
  { destruct (check_installed env (trace m) "pgbench").
    - left. injection Hinst as _ <-. now split.
    - right. split; [reflexivity|].
      unfold get_distro_name in Hinst.
      destruct (in_list (detect_name env) ["debian"; "fedora"; "rhel"; "SuSE"]);
        [|discriminate Hinst].
      apply tbind_done in Hinst. destruct Hinst as (u2 & mi & Hi & Hset).
      injection Hset as _ <-.
      destruct (install_cases env m)
        as [(_ & Hc)|[(_ & _ & evs0 & Hc & Hi0 & Hr0 & _)|(_ & _ & _ & evs0 & Hc & _)]];
        rewrite Hc in Hi; [| |discriminate Hi].
      + assert (Hmi : mi = add_events m (map Install (postgres_packages env)))
          by congruence.
        subst mi. exists []. rewrite app_nil_r. now repeat split.
      + assert (Hmi : mi = add_events
                             (add_events m (map Install (postgres_packages env)))
                             evs0) by congruence.
        subst mi. exists evs0. rewrite add_events_app. now repeat split. }
  clear Hinst.
  (* the service, the role *)
  apply tbind_done in H. destruct H as (u3 & m2 & Hrestart & H).
  rewrite record_event_eq in Hrestart. injection Hrestart as _ <-.
  apply tbind_done in H. destruct H as (output & m3 & Hrole & H).
  apply run_cmd_done in Hrole.
  destruct Hrole as (ru & evs_u & _ & -> & Hiu & Hru & Hrunu & Hout).
  apply tbind_done in H. destruct H as (u4 & m4 & Hcheck & H).
  assert (Hrole_ok : exit_status ru = 0
                     \/ contains "already exists" (stderr_text ru) = true).
  { destruct Hout as [(Hz & _)|(Hnz & _ & ->)]; [now left|].
    right. cbn [fst snd] in Hcheck. unfold truthy in Hcheck.
    apply Z.eqb_neq in Hnz. rewrite Hnz in Hcheck. cbn [negb andb] in Hcheck.
    destruct (contains "already exists" (stderr_text ru));
      [reflexivity|discriminate Hcheck]. }
  assert (Hm4 : m4 = add_events (add_events ma [Restart "postgresql"]) evs_u).
  { destruct (truthy (fst output)
              && negb (contains "already exists" (snd output)));
      [discriminate Hcheck|]. now injection Hcheck as _ <-. }
  clear Hcheck Hout. subst m4.
  (* the parameters, the database *)
  destruct (setUp_validation (read_params env)) as [self' warnings] eqn:Hval.
  cbn [fst].
  apply tbind_done in H. destruct H as (u5 & m5 & Hwarn & H).
  rewrite (for_each_record LogWarn) in Hwarn. injection Hwarn as _ <-.
  apply tbind_done in H. destruct H as (o1 & m6 & Hdb & H).
  apply run_cmd_done in Hdb.
  destruct Hdb as (r1 & evs1 & _ & -> & Hi1 & Hr1 & Hrun1 & Hout1).
  apply tbind_done in H. destruct H as (o2 & m7 & Hinit & H).
  apply run_cmd_done in Hinit.
  destruct Hinit as (r2 & evs2 & _ & -> & Hi2 & Hr2 & Hrun2 & Hout2).
  injection H as <- <-.
  split; [reflexivity|].
  exists ma, ([Restart "postgresql"] ++ evs_u ++ map LogWarn warnings
              ++ evs1 ++ evs2)%list, ru, r1, r2.
  split; [exact Hma|].
  assert (Hw : forall ws, installs (map LogWarn ws) = []
                          /\ removes (map LogWarn ws) = []
                          /\ runs (map LogWarn ws) = []).
  { induction ws as [|w ws IHw]; cbn; [now repeat split|exact IHw]. }
  destruct (Hw warnings) as (Hiw & Hrw & Hrunw).
  repeat apply conj.
  - now rewrite !add_events_app.
  - rewrite !installs_app, Hiu, Hiw, Hi1, Hi2. reflexivity.
  - rewrite !removes_app, Hru, Hrw, Hr1, Hr2. reflexivity.
  - rewrite !runs_app, Hrunu, Hrunw, Hrun1, Hrun2. reflexivity.
  - exact Hrole_ok.
  - destruct Hout1 as [(Hz & _)|(_ & Hb & _)]; [exact Hz|discriminate Hb].
  - destruct Hout2 as [(Hz & _)|(_ & Hb & _)]; [exact Hz|discriminate Hb].
Qed.

Lemma setUp_requires_root_witness :
  geteuid (example_env 1000 "fedora" nothing_fails) <> 0
  /\ setUp (example_env 1000 "fedora" nothing_fails) fresh_machine
     = (Cancelled "This script requires root privileges, Please try again with 'sudo' or as 'root'",
        fresh_machine).
Proof.
  assert (H : geteuid (example_env 1000 "fedora" nothing_fails) <> 0)
    by (cbn; lia).
  split; [exact H|].
  exact (setUp_requires_root _ fresh_machine H).
Defined.

Lemma setUp_unsupported_distribution_witness :
  let env := example_env 0 "arch" nothing_fails in
  geteuid env = 0
  /\ check_installed env (trace fresh_machine) "pgbench" = false
  /\ in_list (detect_name env) ["debian"; "fedora"; "rhel"; "SuSE"] = false
  /\ setUp env fresh_machine
     = (Cancelled "Unsupported Linux distribution", fresh_machine).
Proof.
  intros env.
  assert (H1 : geteuid env = 0) by reflexivity.
  assert (H2 : check_installed env (trace fresh_machine) "pgbench" = false)
    by reflexivity.
  assert (H3 : in_list (detect_name env) ["debian"; "fedora"; "rhel"; "SuSE"]
               = false) by reflexivity.
  split; [exact H1|]. split; [exact H2|]. split; [exact H3|].
  exact (setUp_unsupported_distribution env fresh_machine H1 H2 H3).
Defined.

(** X11: when [setUp] completes on an instance whose [already_installed]
    is still true, the packages [tearDown] then removes are the packages
    that [setUp] installed, in the same order: none when pgbench was
    there, those of the distribution otherwise. *)
Theorem setUp_tearDown_round_trip (env : environment) (m : machine)
        (self : Pgbench) (m1 : machine) :
  already_installed m = true ->
  setUp env m = (Done self, m1) ->
  let packages :=
    if check_installed env (trace m) "pgbench" then []
    else postgres_packages env in
  installs (trace m1) = (installs (trace m) ++ packages)%list
  /\ removes (trace m1) = removes (trace m)
  /\ exists m2,
      tearDown env m1 = (Done tt, m2)
      /\ removes (trace m2) = (removes (trace m) ++ packages)%list
      /\ installs (trace m2) = installs (trace m1).
Proof.
  intros Hai Hset packages.
  destruct (setUp_done env m self m1 Hset)
    as (_ & _ & ma & evs & ru & r1 & r2 & Hma & -> & Hi & Hr & _).
  destruct (tearDown_completes env (add_events ma evs))
    as (m2 & Htd & Hrem & Hinst & _).
  assert (Hpk :
    installs (trace ma) = (installs (trace m) ++ packages)%list
    /\ removes (trace ma) = removes (trace m)
    /\ (if already_installed ma then [] else postgres_packages env) = packages).
  { subst packages.
    destruct Hma as [(-> & ->)|(-> & evs0 & -> & Hi0 & Hr0)];
      cbn [with_already_installed add_events trace already_installed].
    - rewrite installs_app, removes_app, Hai. cbn. now rewrite !app_nil_r.
    - rewrite installs_app, removes_app, installs_app, removes_app,
        installs_map_Install, removes_map_Install, Hi0, Hr0.
      cbn [app]. now rewrite !app_nil_r. }
  destruct Hpk as (Hpi & Hpr & Hpp).
  cbn [add_events trace already_installed] in *.
  rewrite installs_app, Hi, app_nil_r in *.
  rewrite removes_app, Hr, app_nil_r in *.
  split; [exact Hpi|]. split; [exact Hpr|].
  exists m2. split; [exact Htd|]. split; [|exact Hinst].
  now rewrite Hrem, Hpr, Hpp.
Qed.

Lemma setUp_tearDown_round_trip_witness :
  let env := example_env 0 "fedora" nothing_fails in
  already_installed fresh_machine = true
  /\ exists self m1,
      setUp env fresh_machine = (Done self, m1)
      /\ installs (trace m1)
         = ["postgresql"; "postgresql-contrib"; "postgresql-server"]
      /\ exists m2,
          tearDown env m1 = (Done tt, m2)
          /\ removes (trace m2)
             = ["postgresql"; "postgresql-contrib"; "postgresql-server"].
Proof.
  intros env.
  split; [reflexivity|].
  destruct (setUp env fresh_machine) as [[self| |] m1] eqn:Hset;
    try (vm_compute in Hset; discriminate Hset).
  exists self, m1. split; [reflexivity|].
  destruct (setUp_tearDown_round_trip env fresh_machine self m1 eq_refl Hset)
    as (Hi & _ & m2 & Htd & Hr & _).
  split; [exact Hi|]. exists m2. split; [exact Htd|exact Hr].
Defined.

(** X12: [setUp] returns only after the role, the database and the
    tables are there: the last three commands it ran are [createuser],
    which succeeded or said the role already exists, [createdb pgbench]
    and [pgbench -i], which both succeeded.  The attributes it leaves
    are the validated parameters, whose duration and transaction count
    are not both zero; it writes no file and prints nothing. *)
Theorem setUp_postcondition (env : environment) (m : machine)
        (self : Pgbench) (m1 : machine) :
  setUp env m = (Done self, m1) ->
  geteuid env = 0
  /\ self = fst (setUp_validation (read_params env))
  /\ ~ (benchmark_duration self = 0 /\ transaction_count self = 0)
  /\ files m1 = files m /\ console m1 = console m
  /\ exists before ru r1 r2,
      runs (trace m1)
      = (runs (trace m) ++ before
         ++ [(("sudo -u postgres createuser --superuser "
               ++ getlogin env)%string, ru);
             ("createdb pgbench", r1);
             (("pgbench -i -s " ++ str_of_int (scaling_factor self)
               ++ " -n pgbench")%string, r2)])%list
      /\ (exit_status ru = 0
          \/ contains "already exists" (stderr_text ru) = true)
      /\ exit_status r1 = 0 /\ exit_status r2 = 0.
Proof.
  intros Hset.
  destruct (setUp_done env m self m1 Hset)
    as (Hroot & Hself & ma & evs & ru & r1 & r2 & Hma & -> & _ & _
        & Hruns & Hru & Hr1 & Hr2).
  split; [exact Hroot|]. split; [exact Hself|].
  split.
  { destruct (setUp_validation_duration (read_params env)) as [Hd Ht].
    rewrite <- Hself in Hd, Ht. rewrite Hd, Ht.
    destruct (benchmark_duration (read_params env) =? 0) eqn:E1,
             (transaction_count (read_params env) =? 0) eqn:E2;
      cbn [andb]; lia. }
  assert (Hframe : files ma = files m /\ console ma = console m
                   /\ exists before,
                       runs (trace ma) = (runs (trace m) ++ before)%list).
  { destruct Hma as [(_ & ->)|(_ & evs0 & -> & _)];
      cbn [with_already_installed add_events trace files console];
      (split; [reflexivity|]); (split; [reflexivity|]);
      rewrite runs_app; eexists; reflexivity. }
  destruct Hframe as (Hf & Hc & before & Hb).
  cbn [add_events trace files console].
  split; [exact Hf|]. split; [exact Hc|].
  exists before, ru, r1, r2.
  rewrite runs_app, Hb, Hruns, <- app_assoc. now repeat split.
Qed.

Lemma setUp_postcondition_witness :
  let env := example_env 0 "debian" nothing_fails in
  exists self m1,
    setUp env fresh_machine = (Done self, m1)
    /\ geteuid env = 0
    /\ benchmark_duration self = 120
    /\ List.length (runs (trace m1)) = 3%nat.
Proof.
  intros env.
  destruct (setUp env fresh_machine) as [[self| |] m1] eqn:Hset;
    try (vm_compute in Hset; discriminate Hset).
  exists self, m1. split; [reflexivity|].
  destruct (setUp_postcondition env fresh_machine self m1 Hset)
    as (Hroot & Hself & _).
  split; [exact Hroot|].
  split; [rewrite Hself; reflexivity|].
  vm_compute in Hset. injection Hset as _ <-. reflexivity.
Defined.

(** X13: on fedora or rhel, when [postgresql-setup --initdb] fails with
    an error text that does not say [not empty], [setUp] cancels the
    test after the three packages were installed and before
    [already_installed] is cleared: a [tearDown] that follows removes
    none of them. *)
Theorem failed_initdb_leaves_packages (env : environment) (m : machine) :
  geteuid env = 0 ->
  check_installed env (trace m) "pgbench" = false ->
  in_list (detect_name env) ["fedora"; "rhel"] = true ->
  already_installed m = true ->
  let ri := process_run env
                        (trace (add_events m (map Install
                                                  (postgres_packages env))))
                        "postgresql-setup --initdb" in
  exit_status ri <> 0 ->
  contains "not empty" (stderr_text ri) = false ->
  exists m1 m2,
    setUp env m
    = (Cancelled ("Failed to initialize postgres - " ++ stderr_text ri), m1)
    /\ installs (trace m1)
       = (installs (trace m)
          ++ ["postgresql"; "postgresql-contrib"; "postgresql-server"])%list
    /\ tearDown env m1 = (Done tt, m2)
    /\ removes (trace m2) = removes (trace m).
Proof.
  intros Hroot Hinst Hserver Hai ri Hfail Htext.
  pose proof (server_distro_supported _ Hserver) as Hsup.
  destruct (install_cases env m)
    as [(Hd & _)|[(_ & Hok & _)|(_ & _ & _ & evs & Hc & Hi & Hr)]].
  - congruence.
  - fold ri in Hok. destruct Hok; congruence.
  - fold ri in Hc.
    set (m1 := add_events (add_events m (map Install (postgres_packages env)))
                          evs) in *.
    destruct (tearDown_completes env m1) as (m2 & Htd & Hrem & _).
    exists m1, m2. split; [|split; [|split]].
    + unfold setUp. unfold tbind at 1. rewrite Hroot. cbn [Z.eqb negb].
      unfold tret at 1. unfold tbind at 1. unfold tret at 1. rewrite Hinst.
      unfold tbind at 1. unfold get_distro_name. rewrite Hsup.
      unfold tbind at 1. rewrite Hc. reflexivity.
    + subst m1. cbn [add_events trace].
      rewrite !installs_app, installs_map_Install, Hi, app_nil_r.
      unfold postgres_packages. now rewrite Hserver.
    + exact Htd.
    + rewrite Hrem. subst m1. cbn [add_events trace already_installed].
      rewrite Hai, !removes_app, removes_map_Install, Hr. now rewrite !app_nil_r.
Qed.

Lemma failed_initdb_leaves_packages_witness :
  let env := example_env 0 "rhel" initdb_fails in
  geteuid env = 0
  /\ check_installed env (trace fresh_machine) "pgbench" = false
  /\ in_list (detect_name env) ["fedora"; "rhel"] = true
  /\ already_installed fresh_machine = true
  /\ exists m1 m2,
      setUp env fresh_machine
      = (Cancelled "Failed to initialize postgres - boom", m1)
      /\ installs (trace m1)
         = ["postgresql"; "postgresql-contrib"; "postgresql-server"]
      /\ tearDown env m1 = (Done tt, m2)
      /\ removes (trace m2) = [].
Proof.
  intros env.
  assert (H1 : geteuid env = 0) by reflexivity.
  assert (H2 : check_installed env (trace fresh_machine) "pgbench" = false)
    by reflexivity.
  assert (H3 : in_list (detect_name env) ["fedora"; "rhel"] = true)
    by reflexivity.
  assert (H4 : already_installed fresh_machine = true) by reflexivity.
  split; [exact H1|]. split; [exact H2|]. split; [exact H3|].
  split; [exact H4|].
  assert (H5 : exit_status
                 (process_run env
                    (trace (add_events fresh_machine
                              (map Install (postgres_packages env))))
                    "postgresql-setup --initdb") <> 0)
    by (vm_compute; discriminate).
  exact (failed_initdb_leaves_packages env fresh_machine H1 H2 H3 H4 H5
                                       eq_refl).
Defined.

(** ** [test]: paths and texts *)

Lemma string_app_assoc (a b c : string) : (a ++ b) ++ c = a ++ b ++ c.
Proof.
  induction a as [|x a IH]; cbn [append]; [reflexivity|now rewrite IH].
Qed.

Lemma string_app_nil_r (a : string) : a ++ "" = a.
Proof.
  induction a as [|x a IH]; cbn [append]; [reflexivity|now rewrite IH].
Qed.

Lemma ends_with_slash_app (d : string) :
  ends_with_slash (d ++ "/pgbench_logs") = false.
Proof.
  induction d as [|c d IH]; [reflexivity|].
  cbn [append]. destruct (d ++ "/pgbench_logs") as [|c' t] eqn:E.
  - destruct d; discriminate E.
  - exact IH.
Qed.

Lemma path_join_logs (d b : string) :
  prefix "/" b = false ->
  path_join (d ++ "/pgbench_logs") b = d ++ "/pgbench_logs/" ++ b.
Proof.
  intros Hb. unfold path_join. rewrite Hb.
  pose proof (ends_with_slash_app d) as He.
  destruct (d ++ "/pgbench_logs") as [|c t] eqn:E.
  - destruct d; discriminate E.
  - rewrite He, <- E, string_app_assoc. reflexivity.
Qed.

Lemma payload_path_eq (env : environment) :
  payload_path env = logdir env ++ "/pgbench_logs/pgbench_payload.log".
Proof.
  unfold payload_path. now rewrite path_join_logs.
Qed.

(** The log of an iteration is never the payload file. *)
Lemma log_path_not_payload (env : environment) (rest : string) :
  String.eqb (payload_path env)
             (path_join (logdir env ++ "/pgbench_logs")
                        ("pgbench_run_" ++ rest)) = false.
Proof.
  rewrite payload_path_eq, path_join_logs by reflexivity.
  apply String.eqb_neq. intros H. apply append_cancel_l in H.
  cbn in H. discriminate H.
Qed.

(** ** [test]: one iteration *)

Lemma test_iteration_cases (env : environment) (self : Pgbench) (ite : Z)
      (m : machine) :
  exists r,
    (exit_status r = 0
     /\ exists m',
         test_iteration env self ite m = (Done tt, m')
         /\ console m' = console m
         /\ already_installed m' = already_installed m
         /\ runs (trace m') = (runs (trace m) ++ [(test_command self, r)])%list
         /\ files m' (payload_path env)
            = Some (content (files m (payload_path env))
                    ++ iteration_header ite ++ stdout_text r
                    ++ String newline EmptyString))
    \/ (exit_status r <> 0
        /\ exists m',
            test_iteration env self ite m
            = (Cancelled (failure_text (test_command self) r), m')
            /\ console m' = console m
            /\ already_installed m' = already_installed m
            /\ runs (trace m')
               = (runs (trace m) ++ [(test_command self, r)])%list
            /\ files m' = files m).
Proof.
  remember (test_iteration env self ite m) as res eqn:Hres.
  unfold test_iteration in Hres.
  unfold tbind at 1 in Hres. unfold log_info at 1 in Hres.
  rewrite record_event_eq in Hres.
  set (m0 := add_events m _) in Hres.
  unfold tbind at 1 in Hres. unfold tret at 1 in Hres.
  set (log_path := path_join _ _) in Hres.
  exists (process_run env (trace m0) (test_command self)).
  unfold tbind at 1 in Hres.
  destruct (run_cmd_cases env (test_command self) false m0)
    as [(Hr & Hrun)|[(_ & Hb & _)|(Hr & _ & Hrun)]]; [|discriminate Hb|];
    rewrite Hrun in Hres.
  - left. split; [exact Hr|].
    unfold tbind at 1 in Hres. unfold log_info at 1 in Hres.
    rewrite record_event_eq in Hres.
    cbn [fst snd] in Hres. rewrite Hr in Hres.
    cbn [truthy Z.eqb negb] in Hres.
    eexists. split; [rewrite Hres; reflexivity|].
    cbn [add_events trace console files already_installed].
    repeat apply conj; try reflexivity.
    + subst m0. cbn [add_events trace].
      rewrite !runs_app. cbn [runs]. now rewrite !app_nil_r.
    + subst log_path. rewrite log_path_not_payload, !String.eqb_refl.
      subst m0. cbn [add_events files].
      destruct (files m (payload_path env)) as [old|]; cbn [content];
        now rewrite ?string_app_assoc.
  - right. split; [exact Hr|].
    eexists. split; [rewrite Hres; reflexivity|].
    subst m0. cbn [add_events trace console files already_installed].
    repeat apply conj; try reflexivity.
    rewrite !runs_app. cbn [runs]. now rewrite !app_nil_r.
Qed.

(** ** [test]: the loop *)

Lemma payload_after_step (c h o : string) (k : Z) (outs : list string) :
  payload_after (Some (c ++ h ++ o ++ String newline EmptyString)) (k + 1) outs
  = Some (c ++ h ++ o ++ String newline EmptyString
          ++ payload_text (k + 1) outs).
Proof.
  destruct outs as [|o' outs]; unfold payload_after; cbn [content].
  - cbn [payload_text]. now rewrite (string_app_nil_r (String newline "")).
  - now rewrite !string_app_assoc.
Qed.

Lemma test_loop (env : environment) (self : Pgbench) (n k : nat)
      (m : machine) (r : outcome unit) (m' : machine) :
  for_each (map Z.of_nat (seq k n)) (test_iteration env self) m = (r, m') ->
  console m' = console m
  /\ already_installed m' = already_installed m
  /\ exists rs,
      Forall (fun x => exit_status x = 0) rs
      /\ files m' (payload_path env)
         = payload_after (files m (payload_path env)) (Z.of_nat k)
                         (map stdout_text rs)
      /\ match r with
         | Done _ =>
             List.length rs = n
             /\ runs (trace m')
                = (runs (trace m) ++ map (pair (test_command self)) rs)%list
         | Cancelled msg =>
             (List.length rs < n)%nat
             /\ exists rf,
                 exit_status rf <> 0
                 /\ msg = failure_text (test_command self) rf
                 /\ runs (trace m')
                    = (runs (trace m) ++ map (pair (test_command self)) rs
                       ++ [(test_command self, rf)])%list
         | Failed _ => False
         end.
Proof.
  revert k m. induction n as [|n IH]; intros k m; cbn [seq map for_each].
  - unfold tret. intros H. injection H as <- <-.
    split; [reflexivity|]. split; [reflexivity|].
    exists []. cbn [map payload_after Datatypes.length].
    rewrite app_nil_r. now repeat split.
  - intros H.
    destruct (test_iteration_cases env self (Z.of_nat k) m)
      as [r0 [(Hr0 & m1 & Hit & Hc1 & Ha1 & Hruns1 & Hf1)
             |(Hr0 & m1 & Hit & Hc1 & Ha1 & Hruns1 & Hf1)]];
      unfold tbind in H; rewrite Hit in H.
    + destruct (IH (S k) m1 H) as (Hc & Ha & rs & Hall & Hf & Hr).
      split; [congruence|]. split; [congruence|].
      exists (r0 :: rs). split; [now constructor|].
      split.
      * rewrite Hf, Hf1, Nat2Z.inj_succ, <- Z.add_1_r, payload_after_step.
        cbn [map payload_after payload_text]. reflexivity.
      * destruct r as [u|msg|e]; [| |exact Hr].
        -- destruct Hr as (Hlen & Hruns). split; [cbn; congruence|].
           rewrite Hruns, Hruns1, <- app_assoc. reflexivity.
        -- destruct Hr as (Hlen & rf & Hrf & Hmsg & Hruns).
           split; [cbn; lia|]. exists rf.
           split; [exact Hrf|]. split; [exact Hmsg|].
           rewrite Hruns, Hruns1, <- app_assoc. reflexivity.
    + injection H as <- <-.
      split; [exact Hc1|]. split; [exact Ha1|].
      exists []. split; [constructor|].
      split; [now rewrite Hf1|].
      split; [cbn; lia|]. exists r0.
      split; [exact Hr0|]. split; [reflexivity|exact Hruns1].
Qed.

(** ** [test] *)

Lemma call_extract_eq (alg : sum_algorithm) (path : string) (m : machine) :
  exists m',
    call_extract_tps_stats alg path m
    = (outcome_of (fst (report alg path (option_map text_lines (files m path)))),
       m')
    /\ console m'
       = (console m
          ++ snd (report alg path (option_map text_lines (files m path))))%list
    /\ files m' = files m /\ trace m' = trace m
    /\ already_installed m' = already_installed m.
Proof.
  unfold call_extract_tps_stats.
  rewrite extract_tps_stats_report. cbn [fs stdout emit].
  eexists. split; [reflexivity|]. now repeat split.
Qed.

(** What [test] does, whatever its outcome. *)
Lemma test_cases (env : environment) (alg : sum_algorithm) (self : Pgbench)
      (m : machine) (r : outcome unit) (m' : machine) :
  test env alg self m = (r, m') ->
  already_installed m' = already_installed m
  /\ exists rs,
      Forall (fun x => exit_status x = 0) rs
      /\ files m' (payload_path env)
         = payload_after (files m (payload_path env)) 1 (map stdout_text rs)
      /\ match r with
         | Cancelled msg =>
             console m' = console m
             /\ (List.length rs < Z.to_nat (workload_iteration self))%nat
             /\ exists rf,
                 exit_status rf <> 0
                 /\ msg = failure_text (test_command self) rf
                 /\ runs (trace m')
                    = (runs (trace m) ++ map (pair (test_command self)) rs
                       ++ [(test_command self, rf)])%list
         | _ =>
             List.length rs = Z.to_nat (workload_iteration self)
             /\ runs (trace m')
                = (runs (trace m) ++ map (pair (test_command self)) rs)%list
             /\ r = outcome_of
                      (fst (report alg (payload_path env)
                              (option_map text_lines
                                 (files m' (payload_path env)))))
             /\ console m'
                = (console m
                   ++ snd (report alg (payload_path env)
                             (option_map text_lines
                                (files m' (payload_path env)))))%list
         end.
Proof.
  unfold test. intros H.
  unfold tbind at 1 in H. rewrite record_event_eq in H.
  set (m0 := add_events m _) in H.
  apply tbind_inv in H.
  assert (Hm0 : console m0 = console m /\ already_installed m0 = already_installed m
                /\ files m0 = files m /\ runs (trace m0) = runs (trace m)).
  { subst m0. cbn [add_events console already_installed files trace].
    rewrite runs_app. cbn [runs]. now rewrite app_nil_r. }
  destruct Hm0 as (Hc0 & Ha0 & Hf0 & Hr0).
  destruct H as [(u & m1 & Hloop & Hex)|[(msg & Hloop & ->)|(e & Hloop & ->)]];
    apply test_loop in Hloop;
    destruct Hloop as (Hc & Ha & rs & Hall & Hf & Hr).
  - destruct (call_extract_eq alg (payload_path env) m1)
      as (m2 & Heq & Hc2 & Hf2 & Ht2 & Ha2).
    rewrite Heq in Hex. injection Hex as <- <-.
    destruct Hr as (Hlen & Hruns).
    split; [congruence|]. exists rs. split; [exact Hall|].
    split; [rewrite Hf2, Hf, Hf0; reflexivity|].
    assert (Hrest :
      List.length rs = Z.to_nat (workload_iteration self)
      /\ runs (trace m2)
         = (runs (trace m) ++ map (pair (test_command self)) rs)%list
      /\ console m2
         = (console m
            ++ snd (report alg (payload_path env)
                      (option_map text_lines
                         (files m2 (payload_path env)))))%list).
    { split; [unfold range_from_1 in Hlen; exact Hlen|].
      split; [rewrite Ht2, Hruns, Hr0; reflexivity|].
      rewrite Hc2, Hf2, Hc, Hc0. reflexivity. }
    destruct Hrest as (H1 & H2 & H3). rewrite Hf2 in *.
    destruct (fst (report alg (payload_path env)
                     (option_map text_lines (files m1 (payload_path env)))))
      as [[]|e]; cbn [outcome_of]; now repeat split.
  - destruct Hr as (Hlen & rf & Hrf & Hmsg & Hruns).
    split; [congruence|]. exists rs. split; [exact Hall|].
    split; [rewrite Hf, Hf0; reflexivity|].
    split; [congruence|]. split; [exact Hlen|].
    exists rf. split; [exact Hrf|]. split; [exact Hmsg|].
    now rewrite Hruns, Hr0.
  - destruct Hr.
Qed.

(** ** Reading the payload file back *)

Lemma text_lines_step (c : ascii) (rest : string) :
  text_lines (String c rest)
  = if Ascii.eqb c newline then String newline EmptyString :: text_lines rest
    else if Ascii.eqb c carriage_return then
      match rest with
      | String c2 _ =>
          if Ascii.eqb c2 newline then text_lines rest
          else String newline EmptyString :: text_lines rest
      | EmptyString => [String newline EmptyString]
      end
    else push_char c (text_lines rest).
Proof. reflexivity. Qed.

Lemma text_lines_not_nil (c : ascii) (s : string) :
  text_lines (String c s) <> [].
Proof.
  revert c. induction s as [|c' s IH]; intros c; rewrite text_lines_step.
  - destruct (Ascii.eqb c newline); [discriminate|].
    destruct (Ascii.eqb c carriage_return); discriminate.
  - destruct (Ascii.eqb c newline); [discriminate|].
    destruct (Ascii.eqb c carriage_return).
    + destruct (Ascii.eqb c' newline); [apply IH|discriminate].
    + specialize (IH c'). destruct (text_lines (String c' s)); [congruence|].
      discriminate.
Qed.

Lemma push_char_app (c : ascii) (a b : list string) :
  a <> [] -> push_char c (a ++ b) = (push_char c a ++ b)%list.
Proof. destruct a; [congruence|reflexivity]. Qed.

(** A text that ends with a line feed splits cleanly from what
    follows. *)
Lemma text_lines_app_newline (a b : string) :
  text_lines ((a ++ String newline EmptyString) ++ b)
  = (text_lines (a ++ String newline EmptyString) ++ text_lines b)%list.
Proof.
  induction a as [|c a IH].
  - cbn [append]. rewrite text_lines_step, Ascii.eqb_refl. reflexivity.
  - cbn [append]. rewrite !(text_lines_step c).
    destruct (Ascii.eqb c newline); [now rewrite IH|].
    destruct (Ascii.eqb c carriage_return).
    + destruct a as [|c2 a'].
      * cbn [append] in IH |- *. rewrite Ascii.eqb_refl. exact IH.
      * cbn [append] in IH |- *.
        destruct (Ascii.eqb c2 newline); [exact IH|now rewrite IH].
    + rewrite IH. apply push_char_app.
      destruct a; apply text_lines_not_nil.
Qed.

Lemma plain_char_parts (c : ascii) :
  plain_char c = true ->
  Ascii.eqb c newline = false /\ Ascii.eqb c carriage_return = false
  /\ Ascii.eqb "p" c = false.
Proof.
  unfold plain_char. rewrite !andb_true_iff, !negb_true_iff.
  intros [[H1 H2] H3]. rewrite Ascii.eqb_sym in H3. now repeat split.
Qed.

(** A line of plain characters is one line of the text. *)
Lemma text_lines_plain (h rest : string) :
  all_chars plain_char h = true ->
  text_lines (h ++ String newline rest)
  = (h ++ String newline EmptyString) :: text_lines rest.
Proof.
  induction h as [|c h IH]; cbn [all_chars append]; rewrite text_lines_step.
  - intros _. now rewrite Ascii.eqb_refl.
  - intros H. apply andb_prop in H. destruct H as [Hc Hh].
    destruct (plain_char_parts c Hc) as (H1 & H2 & _).
    rewrite H1, H2, (IH Hh). reflexivity.
Qed.

(** A line without the letter p is never matched. *)
Lemma plain_line_no_match (s : string) :
  all_chars plain_char s = true ->
  search tps_pattern (s ++ String newline EmptyString) = None.
Proof.
  induction s as [|c s IH]; cbn [all_chars append].
  - intros _. reflexivity.
  - intros H. apply andb_prop in H. destruct H as [Hc Hs].
    cbn [search]. rewrite match_at_tps_pattern, (IH Hs).
    unfold tps_match_here. cbn [expect].
    destruct (Ascii.eqb "t" c); [|reflexivity].
    destruct s as [|c' s']; cbn [append expect].
    + reflexivity.
    + cbn [all_chars] in Hs. apply andb_prop in Hs. destruct Hs as [Hc' _].
      destruct (plain_char_parts c' Hc') as (_ & _ & Hp). now rewrite Hp.
Qed.

Lemma all_chars_app (cls : ascii -> bool) (a b : string) :
  all_chars cls (a ++ b) = all_chars cls a && all_chars cls b.
Proof.
  induction a as [|c a IH]; cbn [append all_chars]; [reflexivity|].
  now rewrite IH, andb_assoc.
Qed.

Lemma string_of_uint_plain (d : Decimal.uint) :
  all_chars plain_char (DecimalString.NilEmpty.string_of_uint d) = true.
Proof.
  induction d as [|d IH|d IH|d IH|d IH|d IH|d IH|d IH|d IH|d IH|d IH];
    cbn [DecimalString.NilEmpty.string_of_uint all_chars];
    [reflexivity|rewrite IH; reflexivity..].
Qed.

Lemma str_of_int_plain (n : Z) : all_chars plain_char (str_of_int n) = true.
Proof.
  unfold str_of_int, DecimalString.NilZero.string_of_int.
  destruct (Z.to_int n) as [d|d];
    unfold DecimalString.NilZero.string_of_uint;
    [|cbn [all_chars]; rewrite (andb_true_l _)];
    (destruct d; [reflexivity|apply string_of_uint_plain..]).
Qed.

Lemma spaces_plain (n : nat) : all_chars plain_char (spaces n) = true.
Proof. induction n as [|n IH]; [reflexivity|exact IH]. Qed.

(** The header of an iteration is one line, and it holds no sample. *)
Lemma iteration_header_line (ite : Z) :
  exists h,
    iteration_header ite = h ++ String newline EmptyString
    /\ all_chars plain_char h = true.
Proof.
  exists ("==================Iteration " ++ str_of_int ite ++ "============="
          ++ spaces 28).
  split.
  - unfold iteration_header. now rewrite !string_app_assoc.
  - rewrite !all_chars_app, str_of_int_plain, spaces_plain. reflexivity.
Qed.

(** The samples in the payload file are those in the outputs of the
    iterations. *)
Lemma payload_samples (k : Z) (outs : list string) :
  tps_values_of (text_lines (payload_text k outs))
  = tps_values_of
      (flat_map (fun o => text_lines (o ++ String newline EmptyString)) outs).
Proof.
  revert k. induction outs as [|o outs IH]; intros k; [reflexivity|].
  cbn [payload_text flat_map].
  destruct (iteration_header_line k) as (h & -> & Hh).
  rewrite string_app_assoc.
  change (String newline "" ++ ?x) with (String newline x) at 1.
  rewrite (text_lines_plain h _ Hh). cbn [tps_values_of].
  rewrite (plain_line_no_match h Hh).
  rewrite <- string_app_assoc, text_lines_app_newline, !tps_values_of_app.
  now rewrite IH.
Qed.

Lemma report_samples (alg : sum_algorithm) (path : string)
      (a b : list string) :
  tps_values_of a = tps_values_of b ->
  report alg path (Some a) = report alg path (Some b).
Proof. unfold report. now intros ->. Qed.

(** X14: when [test] is cancelled, the cause is the first benchmark
    command that failed: the iterations before it succeeded, no command
    was run after it, and nothing was printed, so a cancelled test shows
    no statistics. *)
Theorem test_cancelled_prints_nothing (env : environment)
        (alg : sum_algorithm) (self : Pgbench) (m : machine) (msg : string)
        (m' : machine) :
  test env alg self m = (Cancelled msg, m') ->
  console m' = console m
  /\ exists rs rf,
      Forall (fun x => exit_status x = 0) rs
      /\ (List.length rs < Z.to_nat (workload_iteration self))%nat
      /\ exit_status rf <> 0
      /\ msg = failure_text (test_command self) rf
      /\ runs (trace m')
         = (runs (trace m) ++ map (pair (test_command self)) rs
            ++ [(test_command self, rf)])%list.
Proof.
  intros H. apply test_cases in H.
  destruct H as (_ & rs & Hall & _ & Hc & Hlen & rf & Hrf & Hmsg & Hruns).
  split; [exact Hc|]. exists rs, rf. now repeat split.
Qed.

Lemma test_cancelled_prints_nothing_witness :
  let env := second_run_fails (example_env 0 "fedora" nothing_fails) in
  exists msg m',
    test env Neumaier (default_self 3) fresh_machine = (Cancelled msg, m')
    /\ console m' = console fresh_machine
    /\ List.length (runs (trace m')) = 2%nat.
Proof.
  intros env.
  destruct (test env Neumaier (default_self 3) fresh_machine)
    as [[u|msg|e] m'] eqn:Htest;
    try (vm_compute in Htest; discriminate Htest).
  exists msg, m'. split; [reflexivity|].
  destruct (test_cancelled_prints_nothing env Neumaier (default_self 3)
              fresh_machine msg m' Htest) as (Hc & _).
  split; [exact Hc|].
  vm_compute in Htest. injection Htest as _ <-. reflexivity.
Defined.

(** X15: when [test] is not cancelled, it ran the benchmark command
    once per configured iteration and every run succeeded; the payload
    file gained, for each iteration in order, its header, the output of
    the run and a line feed, after what the file already held. *)
Theorem test_completed_payload (env : environment) (alg : sum_algorithm)
        (self : Pgbench) (m : machine) (r : outcome unit) (m' : machine) :
  test env alg self m = (r, m') ->
  (forall msg, r <> Cancelled msg) ->
  exists rs,
    List.length rs = Z.to_nat (workload_iteration self)
    /\ Forall (fun x => exit_status x = 0) rs
    /\ runs (trace m')
       = (runs (trace m) ++ map (pair (test_command self)) rs)%list
    /\ files m' (payload_path env)
       = payload_after (files m (payload_path env)) 1 (map stdout_text rs).
Proof.
  intros H Hr. apply test_cases in H.
  destruct H as (_ & rs & Hall & Hf & Hcase).
  exists rs. destruct r as [u|msg|e].
  - destruct Hcase as (Hlen & Hruns & _). now repeat split.
  - now elim (Hr msg).
  - destruct Hcase as (Hlen & Hruns & _). now repeat split.
Qed.

Lemma test_completed_payload_witness :
  let env := example_env 0 "fedora" nothing_fails in
  exists r m',
    test env Neumaier (default_self 3) fresh_machine = (r, m')
    /\ (forall msg, r <> Cancelled msg)
    /\ List.length (runs (trace m')) = 3%nat
    /\ files m' (payload_path env)
       = Some (payload_text 1
                 [line "tps = 12.5 (without initial connection time)";
                  line "tps = 12.5 (without initial connection time)";
                  line "tps = 12.5 (without initial connection time)"]).
Proof.
  intros env.
  destruct (test env Neumaier (default_self 3) fresh_machine)
    as [r m'] eqn:Htest.
  assert (Hr : forall msg, r <> Cancelled msg).
  { intros msg ->. vm_compute in Htest. discriminate Htest. }
  exists r, m'. split; [reflexivity|]. split; [exact Hr|].
  destruct (test_completed_payload env Neumaier (default_self 3)
              fresh_machine r m' Htest Hr) as (rs & _).
  vm_compute in Htest. injection Htest as _ <-. split; reflexivity.
Defined.

(** X16: with no iteration configured (a count of zero or less) and no
    payload file left from before, [test] runs no command, creates no
    file, and the extractor reports the missing payload file. *)
Theorem test_without_iterations (env : environment) (alg : sum_algorithm)
        (self : Pgbench) (m : machine) :
  workload_iteration self <= 0 ->
  files m (payload_path env) = None ->
  exists m',
    test env alg self m = (Done tt, m')
    /\ runs (trace m') = runs (trace m)
    /\ files m' (payload_path env) = None
    /\ console m'
       = (console m
          ++ [Text ("File not found: " ++ payload_path env)])%list.
Proof.
  intros Hn Hfile.
  destruct (test env alg self m) as [r m'] eqn:Htest.
  pose proof (test_cases env alg self m r m' Htest)
    as (_ & rs & _ & Hf & Hcase).
  assert (Hz : Z.to_nat (workload_iteration self) = 0%nat) by lia.
  rewrite Hz in Hcase.
  destruct r as [u|msg|e].
  - destruct Hcase as (Hlen & Hruns & _ & Hc).
    destruct rs; [|discriminate Hlen].
    cbn [map payload_after] in Hf. rewrite Hfile in Hf.
    rewrite Hf in Hc. cbn [option_map report snd] in Hc.
    exists m'. destruct u. rewrite Hruns, app_nil_r. now repeat split.
  - destruct Hcase as (_ & Hlen & _). lia.
  - destruct Hcase as (Hlen & _ & Hr & _).
    destruct rs; [|discriminate Hlen].
    cbn [map payload_after] in Hf. rewrite Hfile in Hf.
    rewrite Hf in Hr. discriminate Hr.
Qed.

Lemma test_without_iterations_witness :
  let env := example_env 0 "fedora" nothing_fails in
  workload_iteration (default_self 0) <= 0
  /\ files fresh_machine (payload_path env) = None
  /\ exists m',
      test env LeftToRight (default_self 0) fresh_machine = (Done tt, m')
      /\ console m'
         = [Text "File not found: /var/tmp/job-1/pgbench_logs/pgbench_payload.log"].
Proof.
  intros env.
  assert (H1 : workload_iteration (default_self 0) <= 0) by (cbn; lia).
  assert (H2 : files fresh_machine (payload_path env) = None) by reflexivity.
  split; [exact H1|]. split; [exact H2|].
  destruct (test_without_iterations env LeftToRight (default_self 0)
              fresh_machine H1 H2) as (m' & Htest & _ & _ & Hc).
  exists m'. split; [exact Htest|]. rewrite Hc. reflexivity.
Defined.

(** X17: when [test] starts without a payload file and is not
    cancelled, what it prints at the end is the report on the outputs of
    its runs, read line by line in the order of the iterations: the
    headers it writes between them add no sample.  An exception escapes
    exactly when that report raises one. *)
Theorem test_reports_the_outputs (env : environment) (alg : sum_algorithm)
        (self : Pgbench) (m : machine) (r : outcome unit) (m' : machine) :
  test env alg self m = (r, m') ->
  (forall msg, r <> Cancelled msg) ->
  files m (payload_path env) = None ->
  0 < workload_iteration self ->
  exists rs,
    runs (trace m')
    = (runs (trace m) ++ map (pair (test_command self)) rs)%list
    /\ let lines :=
         flat_map (fun o => text_lines (o ++ String newline EmptyString))
                  (map stdout_text rs) in
       r = outcome_of (fst (report alg (payload_path env) (Some lines)))
       /\ console m'
          = (console m
             ++ snd (report alg (payload_path env) (Some lines)))%list.
Proof.
  intros H Hr Hfile Hn. apply test_cases in H.
  destruct H as (_ & rs & _ & Hf & Hcase).
  exists rs.
  assert (Hrest :
    List.length rs = Z.to_nat (workload_iteration self)
    /\ runs (trace m')
       = (runs (trace m) ++ map (pair (test_command self)) rs)%list
    /\ r = outcome_of
             (fst (report alg (payload_path env)
                     (option_map text_lines (files m' (payload_path env)))))
    /\ console m'
       = (console m
          ++ snd (report alg (payload_path env)
                    (option_map text_lines
                       (files m' (payload_path env)))))%list).
  { destruct r as [u|msg|e]; [exact Hcase|now elim (Hr msg)|exact Hcase]. }
  destruct Hrest as (Hlen & Hruns & Hout & Hc).
  split; [exact Hruns|].
  destruct rs as [|r0 rs]; [cbn in Hlen; lia|].
  rewrite Hfile in Hf. unfold payload_after in Hf. cbn [map content] in Hf.
  rewrite Hf in Hout, Hc. cbn [option_map append] in Hout, Hc.
  cbv zeta.
  rewrite <- (report_samples alg (payload_path env) _ _
                (payload_samples 1 (map stdout_text (r0 :: rs)))).
  split; [exact Hout|exact Hc].
Qed.

Lemma test_reports_the_outputs_witness :
  let env := example_env 0 "fedora" nothing_fails in
  exists r m',
    test env Neumaier (default_self 3) fresh_machine = (r, m')
    /\ (forall msg, r <> Cancelled msg)
    /\ files fresh_machine (payload_path env) = None
    /\ 0 < workload_iteration (default_self 3)
    /\ r = Done tt
    /\ List.length (console m') = 5%nat.
Proof.
  intros env.
  destruct (test env Neumaier (default_self 3) fresh_machine)
    as [r m'] eqn:Htest.
  assert (Hr : forall msg, r <> Cancelled msg).
  { intros msg ->. vm_compute in Htest. discriminate Htest. }
  assert (Hn : 0 < workload_iteration (default_self 3)) by (cbn; lia).
  exists r, m'. split; [reflexivity|]. split; [exact Hr|].
  split; [reflexivity|]. split; [exact Hn|].
  destruct (test_reports_the_outputs env Neumaier (default_self 3)
              fresh_machine r m' Htest Hr eq_refl Hn) as (rs & _).
  vm_compute in Htest. injection Htest as <- <-. split; reflexivity.
Defined.

(** ** [install_and_initialize_postgres] on its own *)

(** X18: [install_and_initialize_postgres] always installs the packages
    of the distribution first.  It cancels the test exactly when, on
    fedora or rhel, [postgresql-setup --initdb] fails with an error text
    that does not contain [not empty]; on the other distributions it
    runs no command. *)
Theorem install_cancels_iff (env : environment) (m : machine) :
  let ri := process_run env
                        (trace (add_events m (map Install
                                                  (postgres_packages env))))
                        "postgresql-setup --initdb" in
  match install_and_initialize_postgres env (detect_name env) m with
  | (Done _, m') =>
      installs (trace m') = (installs (trace m) ++ postgres_packages env)%list
      /\ (in_list (detect_name env) ["fedora"; "rhel"] = true ->
          (exit_status ri = 0 \/ contains "not empty" (stderr_text ri) = true)
          /\ runs (trace m')
             = (runs (trace m) ++ [("postgresql-setup --initdb", ri)])%list)
      /\ (in_list (detect_name env) ["fedora"; "rhel"] = false ->
          runs (trace m') = runs (trace m))
  | (Cancelled msg, m') =>
      installs (trace m') = (installs (trace m) ++ postgres_packages env)%list
      /\ in_list (detect_name env) ["fedora"; "rhel"] = true
      /\ exit_status ri <> 0
      /\ contains "not empty" (stderr_text ri) = false
      /\ msg = "Failed to initialize postgres - " ++ stderr_text ri
  | (Failed _, _) => False
  end.
Proof.
  intros ri.
  assert (Hmap : runs (map Install (postgres_packages env)) = []).
  { unfold postgres_packages.
    destruct (in_list (detect_name env) ["fedora"; "rhel"]); reflexivity. }
  destruct (install_cases env m)
    as [(Hd & ->)|[(Hd & Hok & evs & -> & Hi & _ & Hruns)
                  |(Hd & Hfail & Htext & evs & -> & Hi & _)]];
    fold ri in Hok || fold ri in Hfail || idtac;
    cbn [add_events trace];
    rewrite ?installs_app, ?runs_app, ?installs_map_Install, ?Hi, ?Hmap,
      ?app_nil_r.
  - split; [reflexivity|]. split; [congruence|reflexivity].
  - fold ri in Hruns. rewrite Hruns.
    split; [reflexivity|]. split; [now split|congruence].
  - fold ri in Htext. now repeat split.
Qed.
